(** * IFC -> CityGML conversion and round-trip parity validation

    A shallow embedding of
      installsure/scripts/bim/automation/ifc_to_citygml.py
      installsure/scripts/bim/automation/validate_roundtrip.py
    and the properties of the conversion / validation pipeline.

    Conventions of the embedding
    - Python [str] is [string]; [None]-or-[str] attributes are [option string].
    - Python list objects that are shared between the converter (validator)
      and the result records it returns live in a [Heap]; a record field
      holding such a list holds its location.
    - An lxml tree is an [Element]; an element handle is the path from the
      root to the node, so that mutation through a handle is visible in the
      tree that is eventually written.
    - A call that may raise returns an [Exc]; only [str(e)] of an exception
      is ever used by the scripts, so an exception is its message.
    - [logger] calls and [print] have no influence on any result and are
      left out.

    What is taken from the libraries
    - [ifcopenshell.open] and [tree.write] may raise; what they answer for a
      given file is an input of the model.  [output_dir.mkdir] in [main] is
      taken to succeed.
    - A document is read back as it was written: serialisation followed by
      parsing keeps the elements, their attributes and the text of the
      leaves.
    - The strings of a model are XML compatible, so that lxml accepts them
      as text and attribute values.
    - [is_a] and [by_type] compare class names; none of the classes the
      scripts ask for is a subtype of another one.
    - [float(s)] is a parameter of the validator: all that matters is
      whether it raises. *)

From stdpp Require Import base list strings gmap.
From Stdlib Require Decimal DecimalString DecimalNat.

Set Warnings "-register-all".

(** ** Python values *)

Module Py.

(** Result of a call that may raise. *)
Inductive Exc (A : Type) : Type :=
| Ok (a : A)
| Raise (msg : string).
Arguments Ok {A} a.
Arguments Raise {A} msg.

(** [str(n)] for a non-negative int. *)
Definition str_nat (n : nat) : string :=
  DecimalString.NilEmpty.string_of_uint (Nat.to_uint n).

(** Truthiness of a [None]-or-[str] value. *)
Definition truthy (v : option string) : bool :=
  match v with
  | Some s => negb (String.eqb s "")
  | None => false
  end.

(** [v or d] where [v] is [None] or a [str] and [d] a [str]. *)
Definition or_else (v : option string) (d : string) : string :=
  match v with
  | Some s => if String.eqb s "" then d else s
  | None => d
  end.

(** [str(v)] where [v] is [None] or a [str]. *)
Definition str_opt (v : option string) : string :=
  match v with
  | Some s => s
  | None => "None"
  end.

(** [s.replace(old, new)] for a non-empty [old]: every non-overlapping
    occurrence, left to right.  [skip] counts the characters of a matched
    occurrence that are still to be dropped. *)
Fixpoint replace_go (old new : string) (skip : nat) (s : string) : string :=
  match s with
  | EmptyString => EmptyString
  | String c s' =>
      match skip with
      | S k => replace_go old new k s'
      | O =>
          if String.prefix old s
          then new +:+ replace_go old new (String.length old - 1) s'
          else String c (replace_go old new 0 s')
      end
  end.
Definition replace (s old new : string) : string := replace_go old new 0 s.

(** A [dict] with [str] keys, in insertion order. *)
Abbreviation dict V := (list (string * V)) (only parsing).

Fixpoint dict_set {V} (k : string) (v : V) (d : dict V) : dict V :=
  match d with
  | [] => [(k, v)]
  | (k', v') :: d' =>
      if String.eqb k' k then (k, v) :: d' else (k', v') :: dict_set k v d'
  end.

Fixpoint dict_get {V} (k : string) (d : dict V) : option V :=
  match d with
  | [] => None
  | (k', v') :: d' => if String.eqb k' k then Some v' else dict_get k d'
  end.

(** *** List objects

    [self.errors] and [self.warnings] are list objects; the result records
    are built with [errors=self.errors], i.e. they alias the very same
    object.  [self.errors = []] allocates a new object and rebinds the
    attribute, [self.errors.append(x)] mutates the object in place. *)
Abbreviation loc := nat (only parsing).
Abbreviation Heap := (list (list string)) (only parsing).

Definition new_list (h : Heap) : Heap * loc := (h ++ [[]], length h).
Definition append (l : loc) (x : string) (h : Heap) : Heap :=
  alter (λ xs, xs ++ [x]) l h.
Definition deref (h : Heap) (l : loc) : list string := default [] (h !! l).

End Py.
Import Py.

(** ** lxml.etree *)

Module etree.

(** An element: tag in Clark notation, attributes, text, children.
    Namespace prefix declarations ([nsmap]) and the white space that
    pretty printing inserts around child elements are presentation only. *)
Inductive Element : Type :=
  Elem { tag : string;
         attrib : dict string;
         text : option string;
         children : list Element }.

(** Handle of a node: child indices from the root of its tree. *)
Abbreviation Handle := (list nat) (only parsing).

Fixpoint node_at (p : Handle) (e : Element) : option Element :=
  match p with
  | [] => Some e
  | i :: p' => children e !! i ≫= node_at p'
  end.

Fixpoint modify_at (p : Handle) (f : Element → Element) (e : Element) : Element :=
  match p with
  | [] => f e
  | i :: p' =>
      Elem (tag e) (attrib e) (text e) (alter (modify_at p' f) i (children e))
  end.

(** [etree.Element(tag)] *)
Definition Element_new (t : string) : Element := Elem t [] None [].

(** [etree.SubElement(parent, tag, attrib)]: appends a new child to the
    node [parent] of the tree [root]; returns the tree and the handle of
    the new child. *)
Definition SubElement (root : Element) (parent : Handle) (t : string)
    (a : dict string) : Element * Handle :=
  let n := from_option (λ e, length (children e)) 0 (node_at parent root) in
  (modify_at parent
     (λ e, Elem (tag e) (attrib e) (text e) (children e ++ [Elem t a None []]))
     root,
   parent ++ [n]).

(** [node.text = s] *)
Definition set_text (root : Element) (node : Handle) (s : string) : Element :=
  modify_at node (λ e, Elem (tag e) (attrib e) (Some s) (children e)) root.

(** [node.set(k, v)] *)
Definition Element_set (root : Element) (node : Handle) (k v : string) : Element :=
  modify_at node (λ e, Elem (tag e) (dict_set k v (attrib e)) (text e) (children e)) root.

(** [node.get(k)] *)
Definition Element_get (e : Element) (k : string) : option string := dict_get k (attrib e).

(** Document order. *)
Fixpoint descendant_or_self (e : Element) : list Element :=
  match e with
  | Elem _ _ _ cs => e :: flat_map descendant_or_self cs
  end.

Definition descendant (e : Element) : list Element :=
  flat_map descendant_or_self (children e).

(** XPath [//T] on a document, [T] an expanded element name. *)
Definition xpath_all (t : string) (doc : Element) : list Element :=
  filter (λ e, tag e = t) (descendant_or_self doc).

(** XPath [.//T] on an element. *)
Definition xpath_below (t : string) (e : Element) : list Element :=
  filter (λ e, tag e = t) (descendant e).

End etree.
Import etree.

(** ** ifcopenshell *)

Module ifcopenshell.

(** Entity classes the scripts distinguish with [is_a] and [by_type]. *)
Inductive IfcClass : Type :=
| IfcBuilding
| IfcBuildingStorey
| IfcRelAggregates
| IfcRelAssociatesClassification
| IfcClassification
| IfcOther (name : string).

#[global] Instance IfcClass_eq_dec : EqDecision IfcClass.
Proof. solve_decision. Defined.

(** An entity instance.  Attributes that an entity of a given class does
    not carry are [None] / [[]].  References to other instances are by
    STEP instance id.  [Elevation] is a float or unset; the scripts only
    ever apply [str] to it, so a float is represented by its [str]. *)
Record Entity : Type := {
  entity_id : nat;  (* [id()] *)
  is_a : IfcClass;
  Name : option string;
  Description : option string;
  GlobalId : option string;
  ObjectType : option string;
  Elevation : option string;
  RelatingObject : option nat;
  RelatedObjects : list nat;
  RelatingClassification : option nat
}.

(** An opened model: its instances in file order. *)
Abbreviation file := (list Entity) (only parsing).

Definition by_type (c : IfcClass) (m : file) : list Entity :=
  filter (λ e, is_a e = c) m.

Definition by_id (m : file) (i : nat) : option Entity :=
  head (filter (λ e, entity_id e = i) m).

(** Does [r] refer to the instance [i] in one of its attributes? *)
Definition refers_to (i : nat) (r : Entity) : bool :=
  bool_decide (RelatingObject r = Some i)
  || bool_decide (i ∈ RelatedObjects r)
  || bool_decide (RelatingClassification r = Some i).

(** [m.get_inverse(e)]: the instances that refer to [e]. *)
Definition get_inverse (m : file) (e : Entity) : list Entity :=
  List.filter (refers_to (entity_id e)) m.

(** [rel.RelatedObjects] as instances. *)
Definition related_objects (m : file) (rel : Entity) : list Entity :=
  omap (by_id m) (RelatedObjects rel).

End ifcopenshell.
Import ifcopenshell.

(** ** ifc_to_citygml.py *)

Module ifc_to_citygml.

Definition CITYGML_NS : string := "http://www.opengis.net/citygml/2.0".
Definition GML_NS : string := "http://www.opengis.net/gml".
Definition CORE : string := "{" +:+ CITYGML_NS +:+ "}".
Definition GML : string := "{" +:+ GML_NS +:+ "}".

(** A path: directory, stem and suffix of the last component. *)
Record Path : Type := { parent : string; stem : string; suffix : string }.
Definition str_path (p : Path) : string :=
  parent p +:+ "/" +:+ stem p +:+ suffix p.

Record ConversionResult : Type := {
  success : bool;
  input_file : string;
  output_file : string;
  buildings_processed : nat;
  errors : loc;
  warnings : loc
}.

(** The attributes of an [IFCToCityGMLConverter] object. *)
Record Converter : Type := {
  self_buildings_processed : nat;
  self_errors : loc;
  self_warnings : loc
}.

(** [__init__] *)
Definition init (h : Heap) : Heap * Converter :=
  let '(h, e) := new_list h in
  let '(h, w) := new_list h in
  (h, {| self_buildings_processed := 0; self_errors := e; self_warnings := w |}).

Definition create_citymodel_root : Element :=
  let root := Element_new (CORE +:+ "CityModel") in
  let '(root, bnd) := SubElement root [] (GML +:+ "boundedBy") [] in
  let '(root, null_element) :=
    SubElement root bnd (GML +:+ "Null") [("reason", "unknown")] in
  set_text root null_element "unknown".

(** [citymodel] is the root of the tree, whose handle is [[]]. *)
Definition add_building (citymodel : Element) (name gml_id : string)
    : Element * Handle :=
  let '(citymodel, member) :=
    SubElement citymodel [] (CORE +:+ "cityObjectMember") [] in
  let '(citymodel, building) :=
    SubElement citymodel member (CORE +:+ "Building") [(GML +:+ "id", gml_id)] in
  let '(citymodel, name_element) :=
    SubElement citymodel building (GML +:+ "name") [] in
  let citymodel := set_text citymodel name_element name in
  (citymodel, building).

Record StoreyInfo : Type := {
  storey_name : string;
  storey_elevation : option string;
  storey_global_id : option string;
  storey_description : string
}.

Definition extract_building_storeys (ifc_model : file) (building : Entity)
    : list StoreyInfo :=
  let rels := get_inverse ifc_model building in
  rel ← rels;
  if bool_decide (is_a rel = IfcRelAggregates) then
    obj ← related_objects ifc_model rel;
    if bool_decide (is_a obj = IfcBuildingStorey) then
      [ {| storey_name := or_else (Name obj) ("Storey_" +:+ str_nat (entity_id obj));
           storey_elevation := Elevation obj;
           storey_global_id := GlobalId obj;
           storey_description := or_else (Description obj) "" |} ]
    else []
  else [].

Fixpoint add_storey_information (citymodel : Element) (building_element : Handle)
    (storeys : list StoreyInfo) : Element :=
  match storeys with
  | [] => citymodel
  | storey :: storeys =>
      let '(citymodel, storey_name_el) :=
        SubElement citymodel building_element (GML +:+ "name") [] in
      let citymodel :=
        set_text citymodel storey_name_el ("Storey::" +:+ storey_name storey) in
      let '(citymodel, elevation_attr) :=
        SubElement citymodel building_element (CORE +:+ "genericAttribute") [] in
      let citymodel := Element_set citymodel elevation_attr "name" "storey_elevation" in
      let citymodel :=
        Element_set citymodel elevation_attr "value" (str_opt (storey_elevation storey)) in
      add_storey_information citymodel building_element storeys
  end.

(** The classification loop of [extract_building_properties], given the
    model that the name [ifc_model] evaluates to. *)
Definition classification_properties (ifc_model : file) (building : Entity)
    (properties : dict string) : dict string :=
  foldl
    (λ properties rel,
       if bool_decide (is_a rel = IfcRelAssociatesClassification) then
         foldl
           (λ properties obj,
              if bool_decide (entity_id obj = entity_id building) then
                match RelatingClassification rel ≫= by_id ifc_model with
                | Some classification =>
                    dict_set "classification"
                      (or_else (Name classification) "Unknown") properties
                | None => properties
                end
              else properties)
           properties (related_objects ifc_model rel)
       else properties)
    properties (get_inverse ifc_model building).

(** [extract_building_properties(self, building)].  Its body reads the
    name [ifc_model], which is neither a parameter nor a local of the
    method, so Python resolves it among the module globals:
    [global_ifc_model] is that binding, [None] when there is none, in
    which case evaluating the name raises [NameError]. *)
Definition extract_building_properties (global_ifc_model : option file)
    (building : Entity) : Exc (dict string) :=
  let properties : dict string := [] in
  let properties :=
    if truthy (Name building)
    then dict_set "name" (str_opt (Name building)) properties else properties in
  let properties :=
    if truthy (Description building)
    then dict_set "description" (str_opt (Description building)) properties
    else properties in
  let properties :=
    if truthy (GlobalId building)
    then dict_set "global_id" (str_opt (GlobalId building)) properties
    else properties in
  let properties :=
    if truthy (ObjectType building)
    then dict_set "object_type" (str_opt (ObjectType building)) properties
    else properties in
  match global_ifc_model with
  | None => Raise "name 'ifc_model' is not defined"
  | Some ifc_model => Ok (classification_properties ifc_model building properties)
  end.

(** The module binds no global named [ifc_model]: its globals are the
    imports, [logger], the namespace constants, [ConversionResult],
    [IFCToCityGMLConverter] and [main]. *)
Definition module_global_ifc_model : option file := None.

Fixpoint add_building_properties (citymodel : Element) (building_element : Handle)
    (properties : dict string) : Element :=
  match properties with
  | [] => citymodel
  | (key, value) :: properties =>
      let citymodel :=
        if negb (String.eqb key "name") then
          let '(citymodel, attr) :=
            SubElement citymodel building_element (CORE +:+ "genericAttribute") [] in
          let citymodel := Element_set citymodel attr "name" key in
          Element_set citymodel attr "value" value
        else citymodel in
      add_building_properties citymodel building_element properties
  end.

(** What the outside world answers when one input file is converted:
    the result of [ifcopenshell.open(str(ifc_path))] and the exception, if
    any, that [tree.write] raises for the output file. *)
Record SourceFile : Type := {
  ifc_path : Path;
  opened : Exc file;
  write_raises : option string
}.

(** The body of the [try] block for one building, acting on the tree and
    on [self.buildings_processed]; mutations made before a [raise] stay. *)
Definition Body : Type :=
  file → nat → Entity → Element → nat → Element * nat * Exc unit.

Definition process_building : Body :=
  λ ifc_model idx building citymodel processed,
  let building_name :=
    or_else (Some (or_else (Name building) ("Building_" +:+ str_nat idx)))
            ("Building_" +:+ str_nat idx) in
  let building_id := "b-" +:+ str_nat idx in
  let '(citymodel, building_element) :=
    add_building citymodel building_name building_id in
  let storeys := extract_building_storeys ifc_model building in
  let citymodel :=
    match storeys with
    | [] => citymodel
    | _ => add_storey_information citymodel building_element storeys
    end in
  match extract_building_properties module_global_ifc_model building with
  | Raise e => (citymodel, processed, Raise e)
  | Ok properties =>
      let citymodel :=
        add_building_properties citymodel building_element properties in
      (citymodel, S processed, Ok ())
  end.

Definition building_error (idx : nat) (e : string) : string :=
  "Error processing building " +:+ str_nat idx +:+ ": " +:+ e.

(** [for idx, building in enumerate(buildings): try: ... except Exception] *)
Fixpoint process_buildings (body : Body) (ifc_model : file) (idx : nat)
    (buildings : list Entity) (h : Heap) (self : Converter) (citymodel : Element)
    : Heap * Converter * Element :=
  match buildings with
  | [] => (h, self, citymodel)
  | building :: buildings =>
      let '(citymodel, processed, outcome) :=
        body ifc_model idx building citymodel (self_buildings_processed self) in
      let self :=
        {| self_buildings_processed := processed;
           self_errors := self_errors self;
           self_warnings := self_warnings self |} in
      let h :=
        match outcome with
        | Ok _ => h
        | Raise e => append (self_errors self) (building_error idx e) h
        end in
      process_buildings body ifc_model (S idx) buildings h self citymodel
  end.

(** The outer [except Exception as e] handler. *)
Definition file_failure (h : Heap) (self : Converter) (p : Path) (e : string)
    : Heap * Converter * ConversionResult * option Element :=
  let error_msg := "Error processing IFC file " +:+ str_path p +:+ ": " +:+ e in
  let h := append (self_errors self) error_msg h in
  (h, self,
   {| success := false;
      input_file := str_path p;
      output_file := "";
      buildings_processed := 0;
      errors := self_errors self;
      warnings := self_warnings self |},
   None).

(** [process_ifc_file(self, ifc_path, output_dir)] with the [try] body of
    the building loop as a parameter.  The last component of the result
    is the document written to the output file, if one was written. *)
Definition process_ifc_file_with (body : Body) (h : Heap) (self : Converter)
    (src : SourceFile) (output_dir : string)
    : Heap * Converter * ConversionResult * option Element :=
  let '(h, e) := new_list h in
  let '(h, w) := new_list h in
  let self :=
    {| self_buildings_processed := 0; self_errors := e; self_warnings := w |} in
  match opened src with
  | Raise exn => file_failure h self (ifc_path src) exn
  | Ok ifc_model =>
      let citymodel := create_citymodel_root in
      let buildings := by_type IfcBuilding ifc_model in
      let h :=
        match buildings with
        | [] =>
            let h :=
              append (self_warnings self)
                "No IfcBuilding entities found in IFC file" h in
            let storeys := by_type IfcBuildingStorey ifc_model in
            match storeys with
            | [] => h
            | _ =>
                append (self_warnings self)
                  ("Found " +:+ str_nat (length storeys)
                   +:+ " building storeys without building entity") h
            end
        | _ => h
        end in
      let '(h, self, citymodel) :=
        process_buildings body ifc_model 0 buildings h self citymodel in
      let output_file :=
        {| parent := output_dir; stem := stem (ifc_path src); suffix := ".gml" |} in
      match write_raises src with
      | Some exn => file_failure h self (ifc_path src) exn
      | None =>
          (h, self,
           {| success := bool_decide (length (deref h (self_errors self)) = 0);
              input_file := str_path (ifc_path src);
              output_file := str_path output_file;
              buildings_processed := self_buildings_processed self;
              errors := self_errors self;
              warnings := self_warnings self |},
           Some citymodel)
      end
  end.

Definition process_ifc_file :=
  process_ifc_file_with process_building.

(** The file system as [main] sees it. *)
Record World : Type := {
  dir_exists : string → bool;
  glob_ifc : string → list SourceFile   (* [input_dir.glob("*.ifc")] *)
}.

(** The conversion loop of [main]; returns [successful_conversions] and
    [total_buildings]. *)
Fixpoint convert_files (ifc_files : list SourceFile) (output_dir : string)
    (h : Heap) (converter : Converter) (successful_conversions total_buildings : nat)
    : Heap * Converter * nat * nat :=
  match ifc_files with
  | [] => (h, converter, successful_conversions, total_buildings)
  | ifc_file :: ifc_files =>
      let '(h, converter, result, _) :=
        process_ifc_file h converter ifc_file output_dir in
      if success result
      then convert_files ifc_files output_dir h converter
             (successful_conversions + 1)
             (total_buildings + buildings_processed result)
      else convert_files ifc_files output_dir h converter
             successful_conversions total_buildings
  end.

(** [main()]: the value is the argument of the [sys.exit] that ends it.
    [argv] is [sys.argv]. *)
Definition main (argv : list string) (w : World) : nat :=
  match argv with
  | _ :: input_dir :: output_dir :: _ =>
      if negb (dir_exists w input_dir) then 1
      else
        let '(h, converter) := init [] in
        let ifc_files := glob_ifc w input_dir in
        match ifc_files with
        | [] => 1
        | _ =>
            let '(_, _, successful_conversions, _) :=
              convert_files ifc_files output_dir h converter 0 0 in
            if bool_decide (successful_conversions = length ifc_files)
            then 0 else 1
        end
  | _ => 2
  end.

End ifc_to_citygml.

(** ** validate_roundtrip.py *)

Module validate_roundtrip.

Definition CITYGML_NS : string := "http://www.opengis.net/citygml/2.0".
Definition GML_NS : string := "http://www.opengis.net/gml".

(** Expanded name of prefix [c:] / [gml:] and a local name. *)
Definition c_ (local : string) : string := "{" +:+ CITYGML_NS +:+ "}" +:+ local.
Definition gml_ (local : string) : string := "{" +:+ GML_NS +:+ "}" +:+ local.

Record ParityResult : Type := {
  ifc_file : string;
  citygml_file : string;
  buildings_parity : bool;
  storeys_parity : bool;
  properties_parity : bool;
  ifc_buildings : nat;
  citygml_buildings : nat;
  ifc_storeys : nat;
  citygml_storeys : nat;
  errors : loc;
  warnings : loc
}.

(** The attributes of a [RoundTripValidator] object. *)
Record Validator : Type := { self_errors : loc; self_warnings : loc }.

(** [__init__] *)
Definition init (h : Heap) : Heap * Validator :=
  let '(h, e) := new_list h in
  let '(h, w) := new_list h in
  (h, {| self_errors := e; self_warnings := w |}).

(** One file pair as the outside world presents it: the result of
    [ifcopenshell.open(str(ifc_path))] and of
    [etree.parse(str(citygml_path))]. *)
Record FilePair : Type := {
  ifc_path : string;
  citygml_path : string;
  opened : Exc file;
  parsed : Exc Element
}.

Record IfcBuildingMetadata : Type := {
  ifc_name : string;
  ifc_global_id : option string;
  ifc_description : string;
  ifc_object_type : string
}.

Record CityGMLBuildingMetadata : Type := {
  gml_name : option string;
  gml_attributes : dict (option string)
}.

Section Validator.

(** Python's [float(s)]: [None] when [s] is a float literal, the message
    of the [ValueError] otherwise. *)
Variable float_raises : string → option string.

Definition count_ifc_buildings (h : Heap) (self : Validator) (p : FilePair)
    : Heap * (nat * list IfcBuildingMetadata) :=
  match opened p with
  | Ok ifc_model =>
      let buildings := by_type IfcBuilding ifc_model in
      let building_metadata :=
        (λ building,
           {| ifc_name :=
                or_else (Name building)
                  ("Building_" +:+ str_nat (entity_id building));
              ifc_global_id := GlobalId building;
              ifc_description := or_else (Description building) "";
              ifc_object_type := or_else (ObjectType building) "" |})
        <$> buildings in
      (h, (length buildings, building_metadata))
  | Raise e =>
      (append (self_errors self)
         ("Error reading IFC file " +:+ ifc_path p +:+ ": " +:+ e) h,
       (0, []))
  end.

(** The second component keeps the names of the storey metadata. *)
Definition count_ifc_storeys (h : Heap) (self : Validator) (p : FilePair)
    : Heap * (nat * list string) :=
  match opened p with
  | Ok ifc_model =>
      let storeys := by_type IfcBuildingStorey ifc_model in
      let storey_metadata :=
        (λ storey,
           or_else (Name storey) ("Storey_" +:+ str_nat (entity_id storey)))
        <$> storeys in
      (h, (length storeys, storey_metadata))
  | Raise e =>
      (append (self_errors self)
         ("Error reading IFC storeys " +:+ ifc_path p +:+ ": " +:+ e) h,
       (0, []))
  end.

Definition count_citygml_buildings (h : Heap) (self : Validator) (p : FilePair)
    : Heap * (nat * list CityGMLBuildingMetadata) :=
  match parsed p with
  | Ok doc =>
      let buildings := xpath_all (c_ "Building") doc in
      let building_metadata :=
        (λ building,
           let name_elements := xpath_below (gml_ "name") building in
           let name :=
             match name_elements with
             | e :: _ => text e
             | [] => Some "Unknown"
             end in
           let attr_elements := xpath_below (c_ "genericAttribute") building in
           let attributes :=
             foldl
               (λ attributes attr,
                  let attr_name := Element_get attr "name" in
                  let attr_value := Element_get attr "value" in
                  if truthy attr_name
                  then dict_set (str_opt attr_name) attr_value attributes
                  else attributes)
               [] attr_elements in
           {| gml_name := name; gml_attributes := attributes |})
        <$> buildings in
      (h, (length buildings, building_metadata))
  | Raise e =>
      (append (self_errors self)
         ("Error reading CityGML file " +:+ citygml_path p +:+ ": " +:+ e) h,
       (0, []))
  end.

(** XPath [//gml:name[starts-with(text(), 'Storey::')]] *)
Definition storey_name_elements (doc : Element) : list Element :=
  List.filter
    (λ e, bool_decide (tag e = gml_ "name")
          && match text e with
             | Some s => String.prefix "Storey::" s
             | None => false
             end)
    (descendant_or_self doc).

(** XPath [//c:genericAttribute[@name='storey_elevation']] *)
Definition storey_elevation_attrs (doc : Element) : list Element :=
  List.filter
    (λ e, bool_decide (tag e = c_ "genericAttribute")
          && bool_decide (Element_get e "name" = Some "storey_elevation"))
    (descendant_or_self doc).

(** The metadata loop of [count_citygml_storeys]; the names of the
    metadata are kept.  [float(...)] is the one call that may raise. *)
Fixpoint storey_metadata_loop (doc : Element) (storey_names : list Element)
    : Exc (list string) :=
  match storey_names with
  | [] => Ok []
  | name_elem :: storey_names =>
      let storey_name := replace (default "" (text name_elem)) "Storey::" "" in
      let elevation_attrs := storey_elevation_attrs doc in
      let raised :=
        match elevation_attrs with
        | a :: _ => float_raises (default "0" (Element_get a "value"))
        | [] => None
        end in
      match raised with
      | Some e => Raise e
      | None =>
          match storey_metadata_loop doc storey_names with
          | Ok storey_metadata => Ok (storey_name :: storey_metadata)
          | Raise e => Raise e
          end
      end
  end.

Definition count_citygml_storeys (h : Heap) (self : Validator) (p : FilePair)
    : Heap * (nat * list string) :=
  let failure e :=
    (append (self_errors self)
       ("Error reading CityGML storeys " +:+ citygml_path p +:+ ": " +:+ e) h,
     (0, [])) in
  match parsed p with
  | Ok doc =>
      let storey_names := storey_name_elements doc in
      match storey_metadata_loop doc storey_names with
      | Ok storey_metadata => (h, (length storey_names, storey_metadata))
      | Raise e => failure e
      end
  | Raise e => failure e
  end.

Definition validate_parity (h : Heap) (self : Validator) (p : FilePair)
    : Heap * Validator * ParityResult :=
  let '(h, e) := new_list h in
  let '(h, w) := new_list h in
  let self := {| self_errors := e; self_warnings := w |} in
  let '(h, (ifc_buildings, ifc_building_metadata)) := count_ifc_buildings h self p in
  let '(h, (ifc_storeys, ifc_storey_metadata)) := count_ifc_storeys h self p in
  let '(h, (citygml_buildings, citygml_building_metadata)) :=
    count_citygml_buildings h self p in
  let '(h, (citygml_storeys, citygml_storey_metadata)) :=
    count_citygml_storeys h self p in
  let buildings_parity := bool_decide (ifc_buildings = citygml_buildings) in
  let h :=
    if negb buildings_parity
    then append (self_errors self)
           ("Building count mismatch: IFC=" +:+ str_nat ifc_buildings
            +:+ ", CityGML=" +:+ str_nat citygml_buildings) h
    else h in
  let storeys_parity := bool_decide (ifc_storeys = citygml_storeys) in
  let h :=
    if negb storeys_parity
    then append (self_errors self)
           ("Storeys count mismatch: IFC=" +:+ str_nat ifc_storeys
            +:+ ", CityGML=" +:+ str_nat citygml_storeys) h
    else h in
  let names_differ :=
    bool_decide (0 < ifc_buildings) && bool_decide (0 < citygml_buildings)
    && negb (bool_decide
               (list_to_set (Some ∘ ifc_name <$> ifc_building_metadata)
                =@{gset (option string)}
                list_to_set (gml_name <$> citygml_building_metadata))) in
  let properties_parity := negb names_differ in
  let h :=
    if names_differ
    then append (self_errors self) "Building names not preserved in CityGML" h
    else h in
  let h :=
    if bool_decide (ifc_buildings = 0)
    then append (self_warnings self) "No buildings found in IFC file" h else h in
  let h :=
    if bool_decide (citygml_buildings = 0)
    then append (self_warnings self) "No buildings found in CityGML file" h
    else h in
  (h, self,
   {| ifc_file := ifc_path p;
      citygml_file := citygml_path p;
      buildings_parity := buildings_parity;
      storeys_parity := storeys_parity;
      properties_parity := properties_parity;
      ifc_buildings := ifc_buildings;
      citygml_buildings := citygml_buildings;
      ifc_storeys := ifc_storeys;
      citygml_storeys := citygml_storeys;
      errors := self_errors self;
      warnings := self_warnings self |}).

(** One input file of [main] as the outside world presents it: the IFC
    file with the [.gml] file of the same stem in the CityGML directory,
    and whether that [.gml] file exists. *)
Record InputFile : Type := {
  file_pair : FilePair;
  citygml_exists : bool
}.

(** The file system as [main] sees it: [glob_pairs w ifc_dir citygml_dir]
    stands for [ifc_dir.glob("*.ifc")], each file with its counterpart
    [citygml_dir / (ifc_file.stem + ".gml")]. *)
Record World : Type := {
  dir_exists : string → bool;
  glob_pairs : string → string → list InputFile
}.

(** The validation loop of [main]; returns [successful_validations] and
    [total_errors]. *)
Fixpoint validate_files (ifc_files : list InputFile) (h : Heap)
    (validator : Validator) (successful_validations total_errors : nat)
    : Heap * Validator * nat * nat :=
  match ifc_files with
  | [] => (h, validator, successful_validations, total_errors)
  | ifc_file :: ifc_files =>
      if negb (citygml_exists ifc_file)
      then validate_files ifc_files h validator
             successful_validations (total_errors + 1)
      else
        let '(h, validator, result) :=
          validate_parity h validator (file_pair ifc_file) in
        match deref h (errors result) with
        | [] =>
            validate_files ifc_files h validator
              (successful_validations + 1) total_errors
        | result_errors =>
            validate_files ifc_files h validator
              successful_validations (total_errors + length result_errors)
        end
  end.

(** [main()]: the value is the argument of the [sys.exit] that ends it.
    [argv] is [sys.argv]. *)
Definition main (argv : list string) (w : World) : nat :=
  match argv with
  | _ :: ifc_dir :: citygml_dir :: _ =>
      if negb (dir_exists w ifc_dir) then 1
      else if negb (dir_exists w citygml_dir) then 1
      else
        let '(h, validator) := init [] in
        let ifc_files := glob_pairs w ifc_dir citygml_dir in
        match ifc_files with
        | [] => 1
        | _ =>
            let '(_, _, successful_validations, _) :=
              validate_files ifc_files h validator 0 0 in
            if bool_decide (successful_validations = length ifc_files)
            then 0 else 1
        end
  | _ => 2
  end.

End Validator.

End validate_roundtrip.

(** ** Examples *)

Module Examples.
Import ifc_to_citygml.

Definition entity (i : nat) (c : IfcClass) (n : option string) : Entity :=
  {| entity_id := i; is_a := c; Name := n; Description := None;
     GlobalId := Some ("gid-" +:+ str_nat i); ObjectType := None;
     Elevation := None; RelatingObject := None; RelatedObjects := [];
     RelatingClassification := None |}.

Definition aggregates (i relating : nat) (related : list nat) : Entity :=
  {| entity_id := i; is_a := IfcRelAggregates; Name := None; Description := None;
     GlobalId := Some ("gid-" +:+ str_nat i); ObjectType := None;
     Elevation := None; RelatingObject := Some relating; RelatedObjects := related;
     RelatingClassification := None |}.

Definition storey (i : nat) (n : option string) (elev : option string) : Entity :=
  {| entity_id := i; is_a := IfcBuildingStorey; Name := n; Description := None;
     GlobalId := Some ("gid-" +:+ str_nat i); ObjectType := None;
     Elevation := elev; RelatingObject := None; RelatedObjects := [];
     RelatingClassification := None |}.

Definition source (name : string) (m : file) : SourceFile :=
  {| ifc_path := {| parent := "models/incoming"; stem := name; suffix := ".ifc" |};
     opened := Ok m;
     write_raises := None |}.

(** Two buildings, "Tower A" (with one storey "L1" at 3.5) and one with an
    empty name. *)
Definition two_buildings : file :=
  [ entity 10 IfcBuilding (Some "Tower A");
    entity 20 IfcBuilding (Some "");
    storey 30 (Some "L1") (Some "3.5");
    aggregates 40 10 [30] ].

(** No building, one storey that nothing aggregates. *)
Definition lone_storey : file := [ storey 7 (Some "Ground") (Some "0.0") ].

End Examples.

(** ** Observing results

    A result record read through the heap: what a client sees when it
    inspects the record at some later point. *)

Module Observe.

Record ConversionValue : Type := {
  success : bool;
  input_file : string;
  output_file : string;
  buildings_processed : nat;
  errors : list string;
  warnings : list string
}.

Definition conversion (h : Heap) (r : ifc_to_citygml.ConversionResult)
    : ConversionValue :=
  {| success := ifc_to_citygml.success r;
     input_file := ifc_to_citygml.input_file r;
     output_file := ifc_to_citygml.output_file r;
     buildings_processed := ifc_to_citygml.buildings_processed r;
     errors := deref h (ifc_to_citygml.errors r);
     warnings := deref h (ifc_to_citygml.warnings r) |}.

Record ParityValue : Type := {
  buildings_parity : bool;
  storeys_parity : bool;
  properties_parity : bool;
  ifc_buildings : nat;
  citygml_buildings : nat;
  ifc_storeys : nat;
  citygml_storeys : nat;
  parity_errors : list string;
  parity_warnings : list string
}.

Definition parity (h : Heap) (r : validate_roundtrip.ParityResult)
    : ParityValue :=
  {| buildings_parity := validate_roundtrip.buildings_parity r;
     storeys_parity := validate_roundtrip.storeys_parity r;
     properties_parity := validate_roundtrip.properties_parity r;
     ifc_buildings := validate_roundtrip.ifc_buildings r;
     citygml_buildings := validate_roundtrip.citygml_buildings r;
     ifc_storeys := validate_roundtrip.ifc_storeys r;
     citygml_storeys := validate_roundtrip.citygml_storeys r;
     parity_errors := deref h (validate_roundtrip.errors r);
     parity_warnings := deref h (validate_roundtrip.warnings r) |}.

End Observe.

(** ** A client that converts a batch on one converter object

    It calls [process_ifc_file] for each file in turn, as [main] does, and
    keeps every result record. *)

Module Batch.
Import ifc_to_citygml.

Fixpoint convert_from (h : Heap) (converter : Converter)
    (files : list SourceFile) (output_dir : string)
    : Heap * list ConversionResult :=
  match files with
  | [] => (h, [])
  | f :: files =>
      let '(h, converter, result, _) := process_ifc_file h converter f output_dir in
      let '(h, results) := convert_from h converter files output_dir in
      (h, result :: results)
  end.

Definition convert (files : list SourceFile) (output_dir : string)
    : Heap * list ConversionResult :=
  let '(h, converter) := init [] in
  convert_from h converter files output_dir.

Section Validate.
Variable float_raises : string → option string.

Fixpoint validate_from (h : Heap) (validator : validate_roundtrip.Validator)
    (pairs : list validate_roundtrip.FilePair)
    : Heap * list validate_roundtrip.ParityResult :=
  match pairs with
  | [] => (h, [])
  | p :: pairs =>
      let '(h, validator, result) :=
        validate_roundtrip.validate_parity float_raises h validator p in
      let '(h, results) := validate_from h validator pairs in
      (h, result :: results)
  end.

Definition validate (pairs : list validate_roundtrip.FilePair)
    : Heap * list validate_roundtrip.ParityResult :=
  let '(h, validator) := validate_roundtrip.init [] in
  validate_from h validator pairs.
End Validate.

End Batch.

(** ** Notions of the specification *)

Module Spec.

(** [loop_run body m idx bs t n raised t' n']: the buildings [bs], numbered
    from [idx], are processed one after the other starting from tree [t]
    and counter [n]; a building whose processing raises leaves the state
    as it was at the raise, is entered into [raised] with its index and
    exception, and the next building is processed. *)
Inductive loop_run (body : ifc_to_citygml.Body) (m : file)
    : nat → list Entity → Element → nat →
      list (nat * string) → Element → nat → Prop :=
| run_done idx t n :
    loop_run body m idx [] t n [] t n
| run_ok idx b bs t n t1 n1 raised t' n' :
    body m idx b t n = (t1, n1, Ok ()) →
    loop_run body m (S idx) bs t1 n1 raised t' n' →
    loop_run body m idx (b :: bs) t n raised t' n'
| run_raise idx b bs t n t1 n1 e raised t' n' :
    body m idx b t n = (t1, n1, Raise e) →
    loop_run body m (S idx) bs t1 n1 raised t' n' →
    loop_run body m idx (b :: bs) t n ((idx, e) :: raised) t' n'.

(** The Storey entities aggregated under a building: related objects of
    an aggregation relationship whose relating object is a Building. *)
Definition aggregated_under_building (m : file) (s : Entity) : bool :=
  bool_decide (is_a s = IfcBuildingStorey)
  && existsb
       (λ rel,
          bool_decide (is_a rel = IfcRelAggregates)
          && bool_decide (entity_id s ∈ RelatedObjects rel)
          && match RelatingObject rel ≫= by_id m with
             | Some b => bool_decide (is_a b = IfcBuilding)
             | None => false
             end)
       m.

Definition aggregated_storeys (m : file) : list Entity :=
  List.filter (aggregated_under_building m) m.


(** The name elements among the children of an element. *)
Definition names (e : Element) : list (option string) :=
  text <$> filter (λ c, tag c = ifc_to_citygml.GML +:+ "name") (children e).

(** Reading the storeys of a target document raises: there is a storey
    name, there is a storey_elevation attribute, and the value of the
    first one (["0"] when it has none) is no float literal. *)
Definition storey_read_raises (float_raises : string → option string)
    (doc : Element) : option string :=
  match validate_roundtrip.storey_name_elements doc,
        validate_roundtrip.storey_elevation_attrs doc with
  | _ :: _, a :: _ => float_raises (default "0" (Element_get a "value"))
  | _, _ => None
  end.

(** A converter that has just been constructed. *)
Definition fresh_converter : ifc_to_citygml.Converter :=
  (ifc_to_citygml.init []).2.

(** The [ConversionResult] of a file. *)
Definition result_of (f : ifc_to_citygml.SourceFile) (output_dir : string)
    : ifc_to_citygml.ConversionResult :=
  (ifc_to_citygml.process_ifc_file (ifc_to_citygml.init []).1 fresh_converter
     f output_dir).1.2.

Definition file_succeeds (output_dir : string) (f : ifc_to_citygml.SourceFile) : bool :=
  ifc_to_citygml.success (result_of f output_dir).

End Spec.

(** ** Closed forms used in the proofs *)

Module Closed.
Import ifc_to_citygml.

Definition add_children (cs : list Element) (e : Element) : Element :=
  Elem (tag e) (attrib e) (text e) (children e ++ cs).

Definition storey_elements (storey : StoreyInfo) : list Element :=
  [ Elem (GML +:+ "name") [] (Some ("Storey::" +:+ storey_name storey)) [];
    Elem (CORE +:+ "genericAttribute")
      [("name", "storey_elevation");
       ("value", str_opt (storey_elevation storey))] None [] ].

Definition property_elements (kv : string * string) : list Element :=
  if negb (String.eqb kv.1 "name")
  then [ Elem (CORE +:+ "genericAttribute") (dict_set "value" kv.2 [("name", kv.1)])
           None [] ]
  else [].

Definition building_name (idx : nat) (building : Entity) : string :=
  or_else (Name building) ("Building_" +:+ str_nat idx).

(** The Building element as it stands when [extract_building_properties]
    is reached. *)
Definition building_element (ifc_model : file) (idx : nat) (building : Entity)
    : Element :=
  Elem (CORE +:+ "Building") [(GML +:+ "id", "b-" +:+ str_nat idx)] None
    (Elem (GML +:+ "name") [] (Some (building_name idx building)) []
     :: (extract_building_storeys ifc_model building ≫= storey_elements)).

Definition building_member (ifc_model : file) (idx : nat) (building : Entity)
    : Element :=
  Elem (CORE +:+ "cityObjectMember") [] None
    [building_element ifc_model idx building].

(** The building loop without the heap: final tree, final counter, and
    the error strings in the order they are appended. *)
Fixpoint buildings_loop (body : Body) (ifc_model : file) (idx : nat)
    (buildings : list Entity) (citymodel : Element) (processed : nat)
    : Element * nat * list string :=
  match buildings with
  | [] => (citymodel, processed, [])
  | building :: buildings =>
      let '(citymodel, processed, outcome) :=
        body ifc_model idx building citymodel processed in
      let '(citymodel', processed', errs) :=
        buildings_loop body ifc_model (S idx) buildings citymodel processed in
      (citymodel', processed',
       match outcome with
       | Ok _ => errs
       | Raise e => building_error idx e :: errs
       end)
  end.

Definition no_building_warnings (ifc_model : file) : list string :=
  match by_type IfcBuilding ifc_model with
  | [] =>
      "No IfcBuilding entities found in IFC file"
      :: match by_type IfcBuildingStorey ifc_model with
         | [] => []
         | storeys =>
             [ "Found " +:+ str_nat (length storeys)
               +:+ " building storeys without building entity" ]
         end
  | _ => []
  end.

Definition file_error (src : SourceFile) (e : string) : string :=
  "Error processing IFC file " +:+ str_path (ifc_path src) +:+ ": " +:+ e.

(** What one call of [process_ifc_file_with] leaves behind: the contents
    of the two list objects it allocates, the fields of the result, the
    document written. *)
Definition converted (body : Body) (src : SourceFile) (output_dir : string)
    : Observe.ConversionValue * option Element :=
  match opened src with
  | Raise exn =>
      ({| Observe.success := false;
          Observe.input_file := str_path (ifc_path src);
          Observe.output_file := "";
          Observe.buildings_processed := 0;
          Observe.errors := [file_error src exn];
          Observe.warnings := [] |}, None)
  | Ok ifc_model =>
      let '(citymodel, processed, errs) :=
        buildings_loop body ifc_model 0 (by_type IfcBuilding ifc_model)
          create_citymodel_root 0 in
      match write_raises src with
      | Some exn =>
          ({| Observe.success := false;
              Observe.input_file := str_path (ifc_path src);
              Observe.output_file := "";
              Observe.buildings_processed := 0;
              Observe.errors := errs ++ [file_error src exn];
              Observe.warnings := no_building_warnings ifc_model |}, None)
      | None =>
          ({| Observe.success := bool_decide (length errs = 0);
              Observe.input_file := str_path (ifc_path src);
              Observe.output_file :=
                output_dir +:+ "/" +:+ stem (ifc_path src) +:+ ".gml";
              Observe.buildings_processed := processed;
              Observe.errors := errs;
              Observe.warnings := no_building_warnings ifc_model |},
           Some citymodel)
      end
  end.

Definition result_at (l : loc) (v : Observe.ConversionValue) : ConversionResult :=
  {| success := Observe.success v;
     input_file := Observe.input_file v;
     output_file := Observe.output_file v;
     buildings_processed := Observe.buildings_processed v;
     errors := l;
     warnings := S l |}.

Section Parity.
Import validate_roundtrip.
Variable float_raises : string → option string.

(** What one call of [validate_parity] leaves behind. *)
Definition validated (p : FilePair) : Observe.ParityValue :=
  let ifc_buildings :=
    match opened p with
    | Ok m => length (by_type IfcBuilding m)
    | Raise _ => 0
    end in
  let ifc_names :=
    match opened p with
    | Ok m =>
        (λ b, Some (or_else (Name b) ("Building_" +:+ str_nat (entity_id b))))
        <$> by_type IfcBuilding m
    | Raise _ => []
    end in
  let ifc_storeys :=
    match opened p with
    | Ok m => length (by_type IfcBuildingStorey m)
    | Raise _ => 0
    end in
  let citygml_buildings :=
    match parsed p with
    | Ok doc => length (xpath_all (c_ "Building") doc)
    | Raise _ => 0
    end in
  let citygml_names :=
    match parsed p with
    | Ok doc =>
        (λ b, match xpath_below (gml_ "name") b with
              | e :: _ => text e
              | [] => Some "Unknown"
              end)
        <$> xpath_all (c_ "Building") doc
    | Raise _ => []
    end in
  let storeys_failure :=
    match parsed p with
    | Ok doc => Spec.storey_read_raises float_raises doc
    | Raise e => Some e
    end in
  let citygml_storeys :=
    match parsed p, storeys_failure with
    | Ok doc, None => length (storey_name_elements doc)
    | _, _ => 0
    end in
  let buildings_parity := bool_decide (ifc_buildings = citygml_buildings) in
  let storeys_parity := bool_decide (ifc_storeys = citygml_storeys) in
  let names_differ :=
    bool_decide (0 < ifc_buildings) && bool_decide (0 < citygml_buildings)
    && negb (bool_decide
               (list_to_set ifc_names =@{gset (option string)}
                list_to_set citygml_names)) in
  {| Observe.buildings_parity := buildings_parity;
     Observe.storeys_parity := storeys_parity;
     Observe.properties_parity := negb names_differ;
     Observe.ifc_buildings := ifc_buildings;
     Observe.citygml_buildings := citygml_buildings;
     Observe.ifc_storeys := ifc_storeys;
     Observe.citygml_storeys := citygml_storeys;
     Observe.parity_errors :=
       match opened p with
       | Ok _ => []
       | Raise e =>
           [ "Error reading IFC file " +:+ ifc_path p +:+ ": " +:+ e;
             "Error reading IFC storeys " +:+ ifc_path p +:+ ": " +:+ e ]
       end
       ++ match parsed p with
          | Ok _ => []
          | Raise e =>
              [ "Error reading CityGML file " +:+ citygml_path p +:+ ": " +:+ e ]
          end
       ++ match storeys_failure with
          | None => []
          | Some e =>
              [ "Error reading CityGML storeys " +:+ citygml_path p +:+ ": " +:+ e ]
          end
       ++ (if buildings_parity then []
           else [ "Building count mismatch: IFC=" +:+ str_nat ifc_buildings
                  +:+ ", CityGML=" +:+ str_nat citygml_buildings ])
       ++ (if storeys_parity then []
           else [ "Storeys count mismatch: IFC=" +:+ str_nat ifc_storeys
                  +:+ ", CityGML=" +:+ str_nat citygml_storeys ])
       ++ (if names_differ then ["Building names not preserved in CityGML"] else []);
     Observe.parity_warnings :=
       (if bool_decide (ifc_buildings = 0)
        then ["No buildings found in IFC file"] else [])
       ++ (if bool_decide (citygml_buildings = 0)
           then ["No buildings found in CityGML file"] else []) |}.

Definition parity_result_at (l : loc) (p : FilePair) (v : Observe.ParityValue)
    : ParityResult :=
  {| ifc_file := ifc_path p;
     citygml_file := citygml_path p;
     buildings_parity := Observe.buildings_parity v;
     storeys_parity := Observe.storeys_parity v;
     properties_parity := Observe.properties_parity v;
     ifc_buildings := Observe.ifc_buildings v;
     citygml_buildings := Observe.citygml_buildings v;
     ifc_storeys := Observe.ifc_storeys v;
     citygml_storeys := Observe.citygml_storeys v;
     errors := l;
     warnings := S l |}.

End Parity.

End Closed.

(** ** Further notions *)

Module Derived.

(** A property dictionary as [extract_building_properties] builds it:
    distinct keys, all among the five it knows, and no empty value. *)
Definition good_properties (d : dict string) : Prop :=
  NoDup d.*1
  ∧ Forall (λ kv, kv.1 ∈ ["name"; "description"; "global_id"; "object_type";
                          "classification"]
                  ∧ kv.2 ≠ "") d.

(** The errors list of the [ParityResult] of a file pair, as the
    validator's [main] reads it right after the call. *)
Definition pair_errors (float_raises : string → option string)
    (p : validate_roundtrip.FilePair) : list string :=
  let run :=
    validate_roundtrip.validate_parity float_raises
      (validate_roundtrip.init []).1 (validate_roundtrip.init []).2 p in
  deref run.1.1 (validate_roundtrip.errors run.2).

(** What one input file adds to [total_errors] in the validator's [main]. *)
Definition file_errors (float_raises : string → option string)
    (f : validate_roundtrip.InputFile) : nat :=
  if validate_roundtrip.citygml_exists f
  then length (pair_errors float_raises (validate_roundtrip.file_pair f))
  else 1.

(** Does an input file count as a successful validation? *)
Definition file_passes (float_raises : string → option string)
    (f : validate_roundtrip.InputFile) : bool :=
  validate_roundtrip.citygml_exists f
  && bool_decide (pair_errors float_raises (validate_roundtrip.file_pair f) = []).

(** The file pair that validation receives after a conversion: the source
    file and the document written for it. *)
Definition converted_pair (src : ifc_to_citygml.SourceFile)
    (r : ifc_to_citygml.ConversionResult) (doc : Element)
    : validate_roundtrip.FilePair :=
  {| validate_roundtrip.ifc_path := ifc_to_citygml.input_file r;
     validate_roundtrip.citygml_path := ifc_to_citygml.output_file r;
     validate_roundtrip.opened := ifc_to_citygml.opened src;
     validate_roundtrip.parsed := Ok doc |}.

End Derived.

(** * Properties *)

(** ** The heap *)

Section Heap.
Implicit Types (h : Heap) (l : loc) (xs ys : list string).

Lemma append_fresh_fst h xs x rest :
  append (length h) x (h ++ xs :: rest) = h ++ (xs ++ [x]) :: rest.
Proof.
  unfold append. rewrite alter_app_r_alt by done.
  by rewrite Nat.sub_diag.
Qed.

Lemma append_fresh_snd h xs ys x rest :
  append (S (length h)) x (h ++ xs :: ys :: rest) = h ++ xs :: (ys ++ [x]) :: rest.
Proof.
  unfold append. rewrite alter_app_r_alt by lia.
  by replace (S (length h) - length h) with 1 by lia.
Qed.

Lemma deref_fresh_fst h xs rest : deref (h ++ xs :: rest) (length h) = xs.
Proof. unfold deref. by rewrite list_lookup_middle. Qed.

Lemma deref_fresh_snd h xs ys rest :
  deref (h ++ xs :: ys :: rest) (S (length h)) = ys.
Proof.
  unfold deref. rewrite lookup_app_r by lia.
  by replace (S (length h) - length h) with 1 by lia.
Qed.

Lemma deref_app_l h h' l : l < length h → deref (h ++ h') l = deref h l.
Proof. intros. unfold deref. by rewrite lookup_app_l. Qed.

End Heap.

(** ** Trees: mutation through handles *)

Section Tree.
Import ifc_to_citygml Closed.
Implicit Types (e c : Element) (q : list nat) (g : Element → Element).

Lemma alter_last {A} (f : A → A) (l : list A) (x : A) :
  alter f (length l) (l ++ [x]) = l ++ [f x].
Proof. rewrite alter_app_r_alt by done. by rewrite Nat.sub_diag. Qed.

Lemma modify_new_child e c q g :
  modify_at (length (children e) :: q) g (add_children [c] e)
  = add_children [modify_at q g c] e.
Proof. unfold add_children. cbn. by rewrite alter_last. Qed.

Lemma node_new_child e c q :
  node_at (length (children e) :: q) (add_children [c] e) = node_at q c.
Proof. unfold add_children. cbn. by rewrite list_lookup_middle. Qed.

Lemma SubElement_new_child e c q t a :
  SubElement (add_children [c] e) (length (children e) :: q) t a
  = (add_children [(SubElement c q t a).1] e,
     length (children e) :: (SubElement c q t a).2).
Proof.
  unfold SubElement. rewrite node_new_child, modify_new_child. done.
Qed.

Lemma set_text_new_child e c q s :
  set_text (add_children [c] e) (length (children e) :: q) s
  = add_children [set_text c q s] e.
Proof. apply modify_new_child. Qed.

Lemma Element_set_new_child e c q k v :
  Element_set (add_children [c] e) (length (children e) :: q) k v
  = add_children [Element_set c q k v] e.
Proof. apply modify_new_child. Qed.

Lemma add_storey_information_new_child e q storeys : ∀ c,
  add_storey_information (add_children [c] e) (length (children e) :: q) storeys
  = add_children [add_storey_information c q storeys] e.
Proof.
  induction storeys as [|s storeys IH]; intros c; [done|].
  cbn [add_storey_information].
  rewrite SubElement_new_child.
  destruct (SubElement c q _ _) as [c1 h1] eqn:E1. cbn [fst snd].
  rewrite set_text_new_child, SubElement_new_child.
  destruct (SubElement (set_text c1 h1 _) q _ _) as [c2 h2] eqn:E2. cbn [fst snd].
  by rewrite !Element_set_new_child, IH.
Qed.

Lemma add_building_properties_new_child e q properties : ∀ c,
  add_building_properties (add_children [c] e) (length (children e) :: q) properties
  = add_children [add_building_properties c q properties] e.
Proof.
  induction properties as [|[k v] properties IH]; intros c; [done|].
  cbn [add_building_properties].
  destruct (negb (String.eqb k "name")); [|apply IH].
  rewrite SubElement_new_child.
  destruct (SubElement c q _ _) as [c1 h1] eqn:E1. cbn [fst snd].
  by rewrite !Element_set_new_child, IH.
Qed.

(** Inside a member element whose only child is the Building element. *)
Lemma add_storey_information_local mt ma mx bt ba bx storeys : ∀ bcs,
  add_storey_information (Elem mt ma mx [Elem bt ba bx bcs]) [0] storeys
  = Elem mt ma mx [Elem bt ba bx (bcs ++ (storeys ≫= storey_elements))].
Proof.
  induction storeys as [|s storeys IH]; intros bcs.
  { cbn. by rewrite app_nil_r. }
  cbn [add_storey_information].
  unfold SubElement, set_text, Element_set. cbn.
  rewrite !alter_last. cbn. rewrite IH.
  by rewrite <- !app_assoc.
Qed.

Lemma add_building_properties_local mt ma mx bt ba bx properties : ∀ bcs,
  add_building_properties (Elem mt ma mx [Elem bt ba bx bcs]) [0] properties
  = Elem mt ma mx [Elem bt ba bx (bcs ++ (properties ≫= property_elements))].
Proof.
  induction properties as [|[k v] properties IH]; intros bcs.
  { cbn. by rewrite app_nil_r. }
  cbn [add_building_properties mbind list_bind]. unfold property_elements at 1. cbn [fst snd].
  destruct (negb (String.eqb k "name")); [|apply IH].
  unfold SubElement, Element_set. cbn.
  rewrite !alter_last. cbn. rewrite IH.
  by rewrite <- !app_assoc.
Qed.

Lemma add_building_closed e name gml_id :
  add_building e name gml_id
  = (add_children
       [Elem (CORE +:+ "cityObjectMember") [] None
          [Elem (CORE +:+ "Building") [(GML +:+ "id", gml_id)] None
             [Elem (GML +:+ "name") [] (Some name) []]]] e,
     [length (children e); 0]).
Proof.
  destruct e as [t a x cs].
  unfold add_building, SubElement, set_text, add_children. cbn.
  rewrite !list_lookup_middle by done. cbn.
  rewrite !(alter_last _ cs). cbn.
  by rewrite list_lookup_middle.
Qed.

Lemma process_building_closed ifc_model idx building citymodel processed :
  process_building ifc_model idx building citymodel processed
  = (add_children [building_member ifc_model idx building] citymodel,
     processed, Raise "name 'ifc_model' is not defined").
Proof.
  unfold process_building. rewrite add_building_closed.
  cbn [extract_building_properties module_global_ifc_model].
  assert (or_else (Some (or_else (Name building) ("Building_" +:+ str_nat idx)))
            ("Building_" +:+ str_nat idx) = building_name idx building) as ->.
  { unfold building_name, or_else.
    destruct (Name building) as [s|]; [destruct (String.eqb s "") eqn:E|];
      rewrite ?E; try done;
      by destruct (String.eqb ("Building_" +:+ str_nat idx) ""). }
  do 2 f_equal. unfold building_member, building_element.
  destruct (extract_building_storeys ifc_model building) as [|s storeys]; [done|].
  by rewrite add_storey_information_new_child, add_storey_information_local.
Qed.

Lemma buildings_loop_closed ifc_model buildings : ∀ idx citymodel processed,
  buildings_loop process_building ifc_model idx buildings citymodel processed
  = (add_children (imap (λ i, building_member ifc_model (idx + i)) buildings) citymodel,
     processed,
     imap (λ i _, building_error (idx + i) "name 'ifc_model' is not defined") buildings).
Proof.
  induction buildings as [|b bs IH]; intros idx citymodel processed.
  { cbn. destruct citymodel. unfold add_children. cbn. by rewrite app_nil_r. }
  cbn [buildings_loop]. rewrite process_building_closed, IH.
  cbn [imap]. rewrite Nat.add_0_r.
  f_equal; [f_equal|].
  - unfold add_children. cbn. rewrite <- app_assoc. cbn.
    do 3 f_equal. apply imap_ext. intros. cbn. f_equal. lia.
  - f_equal. apply imap_ext. intros. cbn. f_equal. lia.
Qed.

End Tree.

(** ** The conversion, heap and all, against its closed form *)

Section Conversion.
Import ifc_to_citygml Closed.

Lemma process_buildings_closed body m bs : ∀ idx (h : list (list string)) E rest n w tree,
  process_buildings body m idx bs (h ++ E :: rest)
    {| self_buildings_processed := n; self_errors := length h; self_warnings := w |} tree
  = let '(tree', n', errs) := buildings_loop body m idx bs tree n in
    (h ++ (E ++ errs) :: rest,
     {| self_buildings_processed := n'; self_errors := length h; self_warnings := w |},
     tree').
Proof.
  induction bs as [|b bs IH]; intros idx h E rest n w tree.
  { cbn. by rewrite app_nil_r. }
  cbn [process_buildings buildings_loop self_buildings_processed self_errors self_warnings].
  destruct (body m idx b tree n) as [[tree1 n1] [[]|e]].
  - rewrite IH. by destruct (buildings_loop _ _ _ _ _ _) as [[??]?].
  - rewrite append_fresh_fst, IH.
    destruct (buildings_loop _ _ _ _ _ _) as [[??]?].
    by rewrite <- app_assoc.
Qed.

Lemma process_ifc_file_with_closed body (h : list (list string)) self src output_dir :
  ∃ self',
    process_ifc_file_with body h self src output_dir
    = (h ++ [Observe.errors (converted body src output_dir).1;
             Observe.warnings (converted body src output_dir).1],
       self',
       result_at (length h) (converted body src output_dir).1,
       (converted body src output_dir).2).
Proof.
  unfold process_ifc_file_with, converted, new_list. cbn [fst snd].
  rewrite length_app, Nat.add_1_r. rewrite <- app_assoc. cbn [app].
  destruct (opened src) as [m|exn].
  2:{ eexists. unfold file_failure. cbn [self_errors self_warnings].
      by rewrite append_fresh_fst. }
  cbn [self_errors self_warnings].
  match goal with
  | |- context [process_buildings _ _ _ _ ?h0 _ _] =>
      assert (h0 = h ++ [[]; no_building_warnings m]) as ->
  end.
  { unfold no_building_warnings.
    destruct (by_type IfcBuilding m); [|done].
    destruct (by_type IfcBuildingStorey m); by rewrite !append_fresh_snd. }
  rewrite process_buildings_closed.
  destruct (buildings_loop _ _ _ _ _ _) as [[tree' n'] errs].
  destruct (write_raises src) as [exn|]; eexists.
  - unfold file_failure. cbn [self_errors self_warnings fst snd].
    by rewrite append_fresh_fst.
  - cbn [self_errors self_warnings self_buildings_processed fst snd].
    by rewrite deref_fresh_fst.
Qed.
End Conversion.

(** ** The validation, heap and all, against its closed form *)

Section Validation.
Import validate_roundtrip Closed.
Variable float_raises : string → option string.

Lemma storey_metadata_loop_raises doc names :
  match storey_metadata_loop float_raises doc names with
  | Ok md => length md = length names
             ∧ (names = [] ∨ match storey_elevation_attrs doc with
                             | a :: _ => float_raises (default "0" (Element_get a "value")) = None
                             | [] => True
                             end)
  | Raise e => names ≠ []
               ∧ match storey_elevation_attrs doc with
                 | a :: _ => float_raises (default "0" (Element_get a "value")) = Some e
                 | [] => False
                 end
  end.
Proof.
  induction names as [|n names IH]; [by left + (split; [done|by left])|].
  cbn [storey_metadata_loop].
  destruct (storey_elevation_attrs doc) as [|a ?].
  - destruct (storey_metadata_loop _ _ _); [|by destruct IH].
    destruct IH as [IH _]. cbn. rewrite IH. split; [done|by right].
  - destruct (float_raises _) as [e|] eqn:E; [done|].
    destruct (storey_metadata_loop _ _ _) as [md|e].
    + destruct IH as [IH _]. cbn. rewrite IH. split; [done|by right].
    + destruct IH as [_ IH]. congruence.
Qed.

Lemma count_citygml_storeys_closed (h : list (list string)) rest E w p :
  ∃ md,
  count_citygml_storeys float_raises (h ++ E :: rest)
    {| self_errors := length h; self_warnings := w |} p
  = let failure :=
      match parsed p with
      | Ok doc => Spec.storey_read_raises float_raises doc
      | Raise e => Some e
      end in
    (h ++ (E ++ match failure with
                | None => []
                | Some e => ["Error reading CityGML storeys " +:+ citygml_path p +:+ ": " +:+ e]
                end) :: rest,
     (match parsed p, failure with
      | Ok doc, None => length (storey_name_elements doc)
      | _, _ => 0
      end, md)).
Proof.
  unfold count_citygml_storeys, Spec.storey_read_raises. cbn [self_errors].
  destruct (parsed p) as [doc|e]; cbn zeta.
  2:{ eexists. by rewrite append_fresh_fst. }
  pose proof (storey_metadata_loop_raises doc (storey_name_elements doc)) as H.
  destruct (storey_metadata_loop _ _ _) as [md|e]; eexists.
  - destruct H as [_ H]. 
    destruct (storey_name_elements doc); [by rewrite app_nil_r|].
    destruct H as [|H]; [done|].
    destruct (storey_elevation_attrs doc); [by rewrite app_nil_r|].
    rewrite H. by rewrite app_nil_r.
  - destruct H as [H1 H2].
    destruct (storey_name_elements doc); [done|].
    destruct (storey_elevation_attrs doc); [done|].
    rewrite H2. by rewrite append_fresh_fst.
Qed.

Lemma validate_parity_closed (h : list (list string)) self p :
  ∃ self',
    validate_parity float_raises h self p
    = (h ++ [Observe.parity_errors (validated float_raises p);
             Observe.parity_warnings (validated float_raises p)],
       self',
       parity_result_at (length h) p (validated float_raises p)).
Proof.
  unfold validate_parity, new_list.
  rewrite length_app, Nat.add_1_r, <- app_assoc. cbn [app fst snd].
  eexists.
  unfold count_ifc_buildings, count_ifc_storeys, count_citygml_buildings, validated.
  cbn [self_errors self_warnings].
  destruct (opened p) as [m|e1]; destruct (parsed p) as [doc|e2] eqn:Hp;
    rewrite ?append_fresh_fst;
    match goal with
    | |- context [count_citygml_storeys _ (h ++ ?E :: ?rest) ?s p] =>
        destruct (count_citygml_storeys_closed h rest E (S (length h)) p) as [md ->]
    end;
    rewrite Hp; cbn zeta;
    rewrite <- ?list_fmap_compose;
    repeat match goal with
    | |- context [Spec.storey_read_raises ?f ?d] =>
        destruct (Spec.storey_read_raises f d)
    end;
    unfold compose; cbv beta; cbn [ifc_name gml_name];
    repeat match goal with
    | |- context [bool_decide (@eq (gset _) ?x ?y)] =>
        generalize (bool_decide (x = y)); intros ?
    | |- context [length (?f ?t ?x)] =>
        generalize (length (f t x)); intros ?
    | |- context [length (?f ?x)] =>
        generalize (length (f x)); intros ?
    end.
  all: change (bool_decide (0 = 0)) with true.
  all: change (bool_decide (0 < 0)) with false.
  all: cbn [negb andb].

  all: repeat match goal with
    | |- context [bool_decide ?P] => destruct (bool_decide P)
    | b : bool |- _ => destruct b
    end;
    cbn [negb andb app];
    rewrite ?append_fresh_fst, ?append_fresh_snd; reflexivity.
Qed.
End Validation.

(** ** The documents the converter writes *)

Section Documents.
Import ifc_to_citygml Closed.

Lemma descendant_or_self_unfold e :
  descendant_or_self e = e :: flat_map descendant_or_self (children e).
Proof. by destruct e. Qed.

Lemma xpath_all_unfold t e :
  xpath_all t e
  = filter (λ x, tag x = t) [e]
    ++ filter (λ x, tag x = t) (flat_map descendant_or_self (children e)).
Proof.
  unfold xpath_all. rewrite descendant_or_self_unfold.
  apply (filter_app _ [e]).
Qed.

Lemma filter_flat_map {A B} (P : B → Prop) `{!∀ x, Decision (P x)}
    (f : A → list B) (l : list A) :
  filter P (flat_map f l) = flat_map (λ x, filter P (f x)) l.
Proof.
  induction l as [|x l IH]; [done|]. cbn. by rewrite filter_app, IH.
Qed.

Lemma storey_elements_no_building (storeys : list StoreyInfo) :
  filter (λ x, tag x = CORE +:+ "Building")
    (flat_map descendant_or_self (storeys ≫= storey_elements)) = [].
Proof. induction storeys as [|s storeys IH]; [done|]. cbn. apply IH. Qed.

Lemma xpath_all_building_member m idx b :
  xpath_all (CORE +:+ "Building") (building_member m idx b)
  = [building_element m idx b].
Proof.
  unfold xpath_all, building_member. cbn.
  unfold building_element at 1. cbn.
  rewrite app_nil_r, storey_elements_no_building.
  repeat case_decide; try done;
    match goal with
    | H : _ = _ |- _ => by vm_compute in H
    end.
Qed.

Lemma xpath_all_members m buildings : ∀ idx,
  filter (λ x, tag x = CORE +:+ "Building")
    (flat_map descendant_or_self
       (imap (λ i, building_member m (idx + i)) buildings))
  = imap (λ i, building_element m (idx + i)) buildings.
Proof.
  induction buildings as [|b bs IH]; intros idx; [done|].
  cbn [imap flat_map]. rewrite filter_app.
  fold (xpath_all (CORE +:+ "Building") (building_member m (idx + 0) b)).
  rewrite xpath_all_building_member. cbn [app].
  rewrite Nat.add_0_r. f_equal.
  rewrite (imap_ext (_ ∘ S) (λ i, building_member m (S idx + i)) bs)
    by (intros; cbn; f_equal; lia).
  rewrite (imap_ext (_ ∘ S) (λ i, building_element m (S idx + i)) bs)
    by (intros; cbn; f_equal; lia).
  apply IH.
Qed.

Lemma xpath_all_converted m buildings :
  xpath_all (CORE +:+ "Building")
    (add_children (imap (building_member m) buildings) create_citymodel_root)
  = imap (building_element m) buildings.
Proof.
  rewrite xpath_all_unfold. cbn [add_children children].
  rewrite flat_map_app, filter_app.
  assert (filter (λ x, tag x = CORE +:+ "Building")
            (flat_map descendant_or_self (children create_citymodel_root)) = [])
    as -> by by vm_compute.
  rewrite filter_cons_False; [apply (xpath_all_members m buildings 0)|].
  by vm_compute.
Qed.

Lemma conversion_opened src output_dir m :
  opened src = Ok m →
  converted process_building src output_dir
  = let buildings := by_type IfcBuilding m in
    let errs :=
      imap (λ i _, building_error i "name 'ifc_model' is not defined") buildings in
    match write_raises src with
    | Some exn =>
        ({| Observe.success := false;
            Observe.input_file := str_path (ifc_path src);
            Observe.output_file := "";
            Observe.buildings_processed := 0;
            Observe.errors := errs ++ [file_error src exn];
            Observe.warnings := no_building_warnings m |}, None)
    | None =>
        ({| Observe.success := bool_decide (length buildings = 0);
            Observe.input_file := str_path (ifc_path src);
            Observe.output_file :=
              output_dir +:+ "/" +:+ stem (ifc_path src) +:+ ".gml";
            Observe.buildings_processed := 0;
            Observe.errors := errs;
            Observe.warnings := no_building_warnings m |},
         Some (add_children (imap (building_member m) buildings)
                 create_citymodel_root))
    end.
Proof.
  intros Hm. unfold converted. rewrite Hm, buildings_loop_closed.
  cbn zeta. by rewrite length_imap.
Qed.

(** Running [process_ifc_file] and reading its result off the heap. *)
Lemma process_ifc_file_observed body (h : list (list string)) self src output_dir h' self' r written :
  process_ifc_file_with body h self src output_dir = (h', self', r, written) →
  Observe.conversion h' r = (converted body src output_dir).1
  ∧ written = (converted body src output_dir).2
  ∧ h' = h ++ [deref h' (errors r); deref h' (warnings r)]
  ∧ errors r = length h ∧ warnings r = S (length h).
Proof.
  destruct (process_ifc_file_with_closed body h self src output_dir) as [s' ->].
  intros [= <- <- <- <-]. unfold Observe.conversion, result_at.
  cbn [success input_file output_file buildings_processed errors warnings].
  rewrite deref_fresh_fst, deref_fresh_snd.
  by destruct (converted body src output_dir).1.
Qed.
End Documents.

(** ** Conversion *)

Section ConversionClaims.
Import ifc_to_citygml.

Lemma tag_Building : validate_roundtrip.c_ "Building" = CORE +:+ "Building".
Proof. reflexivity. Qed.






(** C3 (boundary). For a source file with zero Building entities the
    document written has zero Building elements (none is synthesized for
    Storey entities), buildings_processed=0, success=true, and the
    warnings are the no-building warning, followed by the storey-count
    warning when Storey entities exist; so there is at least one. *)
Theorem no_building_entities h self src output_dir m h' self' r written :
  opened src = Ok m →
  by_type IfcBuilding m = [] →
  write_raises src = None →
  process_ifc_file h self src output_dir = (h', self', r, written) →
  ∃ doc,
    written = Some doc
    ∧ xpath_all (CORE +:+ "Building") doc = []
    ∧ buildings_processed r = 0
    ∧ success r = true
    ∧ deref h' (warnings r)
      = "No IfcBuilding entities found in IFC file"
        :: match by_type IfcBuildingStorey m with
           | [] => []
           | storeys =>
               [ "Found " +:+ str_nat (length storeys)
                 +:+ " building storeys without building entity" ]
           end
    ∧ 1 ≤ length (deref h' (warnings r)).
Proof.
  intros Hm Hb Hw Hrun.
  apply process_ifc_file_observed in Hrun as (Hv & -> & _).
  rewrite (conversion_opened _ _ _ Hm) in Hv |- *. cbn zeta in Hv |- *.
  rewrite Hw in Hv |- *. rewrite Hb in Hv |- *.
  destruct r as [s i o n e w]. unfold Observe.conversion in Hv. cbn in Hv |- *.
  injection Hv as -> _ _ -> _ ->.
  eexists. split; [done|]. split; [by vm_compute|].
  unfold Closed.no_building_warnings. rewrite Hb.
  repeat split; cbn; lia.
Qed.

Lemma no_building_entities_witness :
  ∃ doc,
    Some create_citymodel_root = Some doc
    ∧ xpath_all (CORE +:+ "Building") doc = []
    ∧ 0 = 0
    ∧ true = true
    ∧ deref [[]; ["No IfcBuilding entities found in IFC file";
                  "Found 1 building storeys without building entity"]] 1
      = "No IfcBuilding entities found in IFC file"
        :: match by_type IfcBuildingStorey Examples.lone_storey with
           | [] => []
           | storeys =>
               [ "Found " +:+ str_nat (length storeys)
                 +:+ " building storeys without building entity" ]
           end
    ∧ 1 ≤ length (deref [[]; ["No IfcBuilding entities found in IFC file";
                  "Found 1 building storeys without building entity"]] 1).
Proof.
  eapply (no_building_entities [] Spec.fresh_converter
            (Examples.source "a" Examples.lone_storey) "models/outgoing"
            Examples.lone_storey _ _
            {| success := true; input_file := "models/incoming/a.ifc";
               output_file := "models/outgoing/a.gml"; buildings_processed := 0;
               errors := 0; warnings := 1 |} _ eq_refl);
    reflexivity.
Defined.



Lemma loop_run_buildings_loop body m buildings : ∀ idx t n,
  ∃ raised t' n',
    Spec.loop_run body m idx buildings t n raised t' n'
    ∧ Closed.buildings_loop body m idx buildings t n
      = (t', n', (λ '(i, e), building_error i e) <$> raised).
Proof.
  induction buildings as [|b bs IH]; intros idx t n.
  { exists [], t, n. split; [constructor|done]. }
  cbn [Closed.buildings_loop].
  destruct (body m idx b t n) as [[t1 n1] [[]|e]] eqn:Hb;
    destruct (IH (S idx) t1 n1) as (raised & t' & n' & Hrun & ->).
  - exists raised, t', n'. split; [by eapply Spec.run_ok|done].
  - exists ((idx, e) :: raised), t', n'. split; [by eapply Spec.run_raise|done].
Qed.

(** C6 (per-building error tolerance), for any body of the [try] block,
    [process_ifc_file] being the instance at [process_building].  The
    buildings are processed one after the other, a raise not stopping the
    loop ([loop_run]); every exception raised on the way is recorded, in
    order, as an error string tagged with the index of its building;
    success is false as soon as one was raised; and the tree the loop
    ends with is still written to the output file. *)
Theorem per_building_error_tolerance body h self src output_dir m h' self' r written :
  opened src = Ok m →
  process_ifc_file_with body h self src output_dir = (h', self', r, written) →
  ∃ raised tree n,
    Spec.loop_run body m 0 (by_type IfcBuilding m) create_citymodel_root 0
      raised tree n
    ∧ take (length raised) (deref h' (errors r))
      = (λ '(idx, e), "Error processing building " +:+ str_nat idx +:+ ": " +:+ e)
        <$> raised
    ∧ (raised ≠ [] → success r = false)
    ∧ (write_raises src = None →
       written = Some tree
       ∧ length (deref h' (errors r)) = length raised
       ∧ buildings_processed r = n
       ∧ (raised = [] → success r = true)).
Proof.
  intros Hm Hrun.
  apply process_ifc_file_observed in Hrun as (Hv & -> & _).
  unfold Closed.converted in *. rewrite Hm in *.
  destruct (loop_run_buildings_loop body m (by_type IfcBuilding m) 0
              create_citymodel_root 0) as (raised & t' & n' & Hloop & Heq).
  rewrite Heq in *. exists raised, t', n'. split; [done|].
  destruct r as [s i o k e w]. unfold Observe.conversion in Hv. cbn in Hv |- *.
  destruct (write_raises src) as [exn|]; cbn in Hv |- *;
    injection Hv as -> _ _ -> -> _.
  - split; [|done].
    rewrite take_app_length'; [done|by rewrite length_fmap].
  - rewrite length_fmap.
    split; [by rewrite firstn_all2 by (rewrite length_fmap; lia)|].
    split; [|repeat split; try done].
    + intros Hne. apply bool_decide_eq_false_2. by destruct raised.
    + by intros ->.
Qed.

Lemma per_building_error_tolerance_witness :
  ∃ raised tree n,
    Spec.loop_run process_building Examples.two_buildings 0
      (by_type IfcBuilding Examples.two_buildings) create_citymodel_root 0
      raised tree n
    ∧ take (length raised)
        (deref [[ "Error processing building 0: name 'ifc_model' is not defined";
                  "Error processing building 1: name 'ifc_model' is not defined" ]; []] 0)
      = (λ '(idx, e), "Error processing building " +:+ str_nat idx +:+ ": " +:+ e)
        <$> raised
    ∧ (raised ≠ [] → false = false)
    ∧ (None = @None string →
       (ifc_to_citygml.process_ifc_file [] Spec.fresh_converter
          (Examples.source "a" Examples.two_buildings) "models/outgoing").2
       = Some tree
       ∧ length
           (deref [[ "Error processing building 0: name 'ifc_model' is not defined";
                     "Error processing building 1: name 'ifc_model' is not defined" ]; []] 0)
         = length raised
       ∧ 0 = n
       ∧ (raised = [] → false = true)).
Proof.
  eapply (per_building_error_tolerance process_building [] Spec.fresh_converter
            (Examples.source "a" Examples.two_buildings) "models/outgoing"
            Examples.two_buildings _ _
            {| success := false; input_file := "models/incoming/a.ifc";
               output_file := "models/outgoing/a.gml"; buildings_processed := 0;
               errors := 0; warnings := 1 |} _ eq_refl);
    reflexivity.
Defined.
End ConversionClaims.

(** ** Building properties as generic attributes *)

Section Properties.
Import ifc_to_citygml Closed.
Implicit Types (e c : Element) (p q : list nat) (f g : Element → Element).




















End Properties.

(** ** Validation *)

Section ValidationClaims.
Import validate_roundtrip.

(** C5, as the code has it.  The source-side count is the number of all
    Storey entities of the file, aggregated under a building or not (0
    when the file cannot be opened); the target-side count is the number
    of name elements of the document whose text begins with "Storey::" (0
    when the document cannot be parsed or reading its storeys raises);
    storeys_parity is true exactly when the two counts are equal. *)
Theorem storey_count_parity float_raises h self p :
  let r := (validate_parity float_raises h self p).2 in
  ifc_storeys r
  = match opened p with
    | Ok m => length (by_type IfcBuildingStorey m)
    | Raise _ => 0
    end
  ∧ citygml_storeys r
    = match parsed p with
      | Ok doc =>
          match Spec.storey_read_raises float_raises doc with
          | None => length (storey_name_elements doc)
          | Some _ => 0
          end
      | Raise _ => 0
      end
  ∧ (storeys_parity r = true ↔ ifc_storeys r = citygml_storeys r)
  ∧ ∀ doc e,
      e ∈ storey_name_elements doc
      ↔ e ∈ descendant_or_self doc
        ∧ tag e = "{http://www.opengis.net/gml}name"
        ∧ ∃ s, text e = Some s ∧ String.prefix "Storey::" s = true.
Proof.
  destruct (validate_parity_closed float_raises h self p) as [s' ->].
  cbn [snd Closed.parity_result_at ifc_storeys citygml_storeys storeys_parity].
  unfold Closed.validated.
  cbn [Observe.ifc_storeys Observe.citygml_storeys Observe.storeys_parity].
  split; [done|]. split.
  { destruct (parsed p) as [doc|]; [|done].
    by destruct (Spec.storey_read_raises _ _). }
  split; [apply bool_decide_eq_true|].
  intros doc e. unfold storey_name_elements.
  rewrite list_elem_of_In, filter_In, <- list_elem_of_In, andb_true_iff.
  rewrite bool_decide_eq_true.
  change (gml_ "name") with "{http://www.opengis.net/gml}name".
  destruct (text e) as [s|];
    (split; [intros (?&?&?)|intros (?&?&?&?&?)]); simplify_eq; eauto.
Qed.

(** C5 as stated fails: a file whose only entity is a Storey that no
    relationship aggregates under a building has a source-side count of 1,
    while no Storey entity is aggregated under any building. *)
Lemma unaggregated_storey_is_counted :
  (∀ float_raises h self,
     ifc_storeys
       (validate_parity float_raises h self
          {| ifc_path := "models/incoming/a.ifc";
             citygml_path := "models/outgoing/a.gml";
             opened := Ok Examples.lone_storey;
             parsed := Ok ifc_to_citygml.create_citymodel_root |}).2 = 1)
  ∧ length (Spec.aggregated_storeys Examples.lone_storey) = 0.
Proof.
  split; [|reflexivity]. intros float_raises h self.
  by destruct (validate_parity_closed float_raises h self
                 {| ifc_path := "models/incoming/a.ifc";
                    citygml_path := "models/outgoing/a.gml";
                    opened := Ok Examples.lone_storey;
                    parsed := Ok ifc_to_citygml.create_citymodel_root |})
    as [s' ->].
Qed.
End ValidationClaims.

(** ** The command line *)

Section CommandLine.
Import ifc_to_citygml.

Lemma success_process_ifc_file (h : list (list string)) self f output_dir :
  success (process_ifc_file h self f output_dir).1.2
  = Spec.file_succeeds output_dir f.
Proof.
  unfold Spec.file_succeeds, Spec.result_of, process_ifc_file.
  destruct (process_ifc_file_with_closed process_building h self f output_dir)
    as [s1 ->].
  by destruct (process_ifc_file_with_closed process_building (init []).1
                 Spec.fresh_converter f output_dir) as [s2 ->].
Qed.

Lemma convert_files_successes files output_dir : ∀ (h : list (list string)) converter s t,
  (convert_files files output_dir h converter s t).1.2
  = s + length (List.filter (Spec.file_succeeds output_dir) files).
Proof.
  induction files as [|f files IH]; intros h converter s t; [cbn; lia|].
  cbn [convert_files List.filter].
  rewrite <- (success_process_ifc_file h converter f output_dir).
  destruct (process_ifc_file h converter f output_dir) as [[[h1 c1] r] w].
  cbn [fst snd]. destruct (success r); rewrite IH; cbn; lia.
Qed.

Lemma filter_all_length {A} (P : A → bool) (l : list A) :
  length (List.filter P l) = length l ↔ forallb P l = true.
Proof.
  induction l as [|x l IH]; [done|]. cbn.
  pose proof (filter_length_le P l).
  destruct (P x); cbn; [rewrite <- IH; lia|]. split; [lia|done].
Qed.

(** C8, as the code has it.  The exit code is 2 exactly when fewer than two
    arguments are given.  Otherwise it is 0 when the input directory
    exists, holds at least one input file and every input file converts
    successfully, and 1 in every other case: input directory missing, no
    input file, or some file failed. *)
Theorem exit_codes w :
  (∀ argv, main argv w = 2 ↔ length argv < 3)
  ∧ ∀ prog input_dir output_dir rest,
      main (prog :: input_dir :: output_dir :: rest) w
      = if dir_exists w input_dir
           && bool_decide (0 < length (glob_ifc w input_dir))
           && forallb (Spec.file_succeeds output_dir) (glob_ifc w input_dir)
        then 0 else 1.
Proof.
  assert (∀ prog input_dir output_dir rest,
      main (prog :: input_dir :: output_dir :: rest) w
      = if dir_exists w input_dir
           && bool_decide (0 < length (glob_ifc w input_dir))
           && forallb (Spec.file_succeeds output_dir) (glob_ifc w input_dir)
        then 0 else 1) as Hmain.
  { intros prog input_dir output_dir rest. cbn [main].
    destruct (dir_exists w input_dir); [|done]. cbn [negb andb].
    destruct (glob_ifc w input_dir) as [|f files] eqn:Hfiles; [done|].
    rewrite bool_decide_eq_true_2 by (cbn; lia). cbn [andb].
    change (init []) with
      ([[]; []] : list (list string),
       {| self_buildings_processed := 0; self_errors := 0; self_warnings := 1 |}).
    cbn iota beta.
    pose proof (convert_files_successes (f :: files) output_dir
                  [[]; []]
                  {| self_buildings_processed := 0;
                     self_errors := 0; self_warnings := 1 |} 0 0) as Hs.
    destruct (convert_files _ _ _ _ _ _) as [[[h c] s] t]. cbn [fst snd] in Hs.
    subst s. cbn [Nat.add].
    destruct (forallb _ _) eqn:Hall.
    - apply filter_all_length in Hall. by rewrite bool_decide_eq_true_2.
    - rewrite bool_decide_eq_false_2; [done|].
      intros Heq. apply filter_all_length in Heq. congruence. }
  split; [|done].
  intros [|prog [|input_dir [|output_dir rest]]]; cbn [length]; try (cbn; split; [lia|done]).
  rewrite Hmain. split; [by destruct (_ && _)|lia].
Qed.

(** C8 as stated fails: with both arguments given and the input directory
    missing, the exit code is 1, not 2. *)
Lemma missing_input_directory_exits_1 :
  let w := {| dir_exists := λ _, false; glob_ifc := λ _, [] |} in
  dir_exists w "models/incoming" = false
  ∧ main ["ifc_to_citygml.py"; "models/incoming"; "models/outgoing"] w = 1
  ∧ main ["ifc_to_citygml.py"; "models/incoming"; "models/outgoing"] w ≠ 2.
Proof. by vm_compute. Qed.
End CommandLine.

(** ** The two-building scenario *)

Section Scenario.
Import validate_roundtrip.

Lemma str_nat_inj n n' : str_nat n = str_nat n' → n = n'.
Proof.
  unfold str_nat. intros H. apply DecimalNat.Unsigned.to_uint_inj.
  apply (f_equal DecimalString.NilEmpty.uint_of_string) in H.
  rewrite !DecimalString.NilEmpty.usu in H. congruence.
Qed.

Lemma first_name_of_building_element m idx b :
  xpath_below (gml_ "name") (Closed.building_element m idx b)
  = Elem (gml_ "name") [] (Some (Closed.building_name idx b)) []
    :: filter (λ e, tag e = gml_ "name")
         (flat_map descendant_or_self
            (ifc_to_citygml.extract_building_storeys m b ≫= Closed.storey_elements)).
Proof.
  unfold xpath_below, descendant, Closed.building_element. cbn.
  by rewrite decide_True.
Qed.

(** C7, as the code has it.  For a source file whose buildings are one
    named "Tower A" and one with an empty name, the target has Building
    elements named "Tower A" and "Building_1" and buildings_parity is
    true; properties_parity, however, is true only if the instance id of
    the nameless building happens to be 1, because the validator names
    that building "Building_" followed by its instance id, not by its
    index. *)
Theorem nameless_building_scenario float_raises h self src output_dir m b1 b2
    h' self' r doc vh vself :
  ifc_to_citygml.opened src = Ok m →
  by_type IfcBuilding m = [b1; b2] →
  Name b1 = Some "Tower A" →
  Name b2 = Some "" →
  ifc_to_citygml.process_ifc_file h self src output_dir = (h', self', r, Some doc) →
  let p := {| ifc_path := ifc_to_citygml.input_file r;
              citygml_path := ifc_to_citygml.output_file r;
              opened := Ok m;
              parsed := Ok doc |} in
  let v := (validate_parity float_raises vh vself p).2 in
  (λ e, head (Spec.names e)) <$> xpath_all (ifc_to_citygml.CORE +:+ "Building") doc
  = [Some (Some "Tower A"); Some (Some "Building_1")]
  ∧ ifc_name <$> (count_ifc_buildings vh vself p).2.2
    = ["Tower A"; "Building_" +:+ str_nat (entity_id b2)]
  ∧ buildings_parity v = true
  ∧ (properties_parity v = true ↔ entity_id b2 = 1).
Proof.
  intros Hm Hb Hn1 Hn2 Hrun p v. subst v.
  apply process_ifc_file_observed in Hrun as (_ & Hw & _).
  rewrite (conversion_opened _ _ _ Hm) in Hw. cbn zeta in Hw.
  destruct (ifc_to_citygml.write_raises src); [done|]. injection Hw as ->.
  rewrite Hb. rewrite xpath_all_converted.
  destruct (validate_parity_closed float_raises vh vself p) as [s' ->].
  cbn [snd Closed.parity_result_at buildings_parity properties_parity].
  unfold Closed.validated, count_ifc_buildings.
  cbn [Observe.buildings_parity Observe.properties_parity p opened parsed].
  rewrite tag_Building, xpath_all_converted, Hb. cbn [imap fmap list_fmap length snd].
  rewrite !first_name_of_building_element.
  unfold compose, Spec.names. cbn.
  rewrite !decide_True by done. unfold Closed.building_name.
  rewrite Hn1, Hn2. cbn.
  split; [done|].
  split; [done|].
  split; [done|].
  change (bool_decide (0 < 2)) with true. cbn [andb].
  rewrite negb_involutive, bool_decide_eq_true.
  split.
  - intros Heq.
    assert (Some ("Building_" +:+ str_nat (entity_id b2))
            ∈@{gset (option string)}
            {[Some "Tower A"]} ∪ ({[Some ("Building_" +:+ "1")]} ∪ ∅)) as Hin
      by (rewrite <- Heq; apply elem_of_union_r, elem_of_union_l, elem_of_singleton; reflexivity).
    apply elem_of_union in Hin as [Hin|Hin].
    + apply elem_of_singleton in Hin. cbn in Hin. discriminate.
    + apply elem_of_union in Hin as [Hin|Hin]; [|by apply elem_of_empty in Hin].
      apply elem_of_singleton in Hin. cbn in Hin.
      apply (str_nat_inj _ 1). injection Hin as Hin. exact Hin.
  - intros ->. reflexivity.
Qed.

Lemma nameless_building_scenario_witness :
  let doc :=
    default ifc_to_citygml.create_citymodel_root
      (ifc_to_citygml.process_ifc_file [] Spec.fresh_converter
         (Examples.source "a" Examples.two_buildings) "models/outgoing").2 in
  let p := {| ifc_path := "models/incoming/a.ifc";
              citygml_path := "models/outgoing/a.gml";
              opened := Ok Examples.two_buildings;
              parsed := Ok doc |} in
  let v := (validate_parity (λ _, None) [] (init []).2 p).2 in
  (λ e, head (Spec.names e)) <$> xpath_all (ifc_to_citygml.CORE +:+ "Building") doc
  = [Some (Some "Tower A"); Some (Some "Building_1")]
  ∧ ifc_name <$> (count_ifc_buildings [] (init []).2 p).2.2
    = ["Tower A"; "Building_" +:+ str_nat 20]
  ∧ buildings_parity v = true
  ∧ (properties_parity v = true ↔ 20 = 1).
Proof.
  apply (nameless_building_scenario (λ _, None) [] Spec.fresh_converter
           (Examples.source "a" Examples.two_buildings) "models/outgoing"
           Examples.two_buildings
           (Examples.entity 10 IfcBuilding (Some "Tower A"))
           (Examples.entity 20 IfcBuilding (Some ""))
           _ _
           {| ifc_to_citygml.success := false;
              ifc_to_citygml.input_file := "models/incoming/a.ifc";
              ifc_to_citygml.output_file := "models/outgoing/a.gml";
              ifc_to_citygml.buildings_processed := 0;
              ifc_to_citygml.errors := 0; ifc_to_citygml.warnings := 1 |}
           _ [] (init []).2 eq_refl eq_refl eq_refl eq_refl eq_refl).
Defined.
End Scenario.

(** ** Batches *)

Section Order.
Variable float_raises : string → option string.

Lemma observe_conversion_at (h : list (list string)) v ext :
  Observe.conversion
    (h ++ Observe.errors v :: Observe.warnings v :: ext)
    (Closed.result_at (length h) v) = v.
Proof.
  unfold Observe.conversion, Closed.result_at. cbn.
  rewrite deref_fresh_fst, deref_fresh_snd. by destruct v.
Qed.

Lemma observe_parity_at (h : list (list string)) p v ext :
  Observe.parity
    (h ++ Observe.parity_errors v :: Observe.parity_warnings v :: ext)
    (Closed.parity_result_at (length h) p v) = v.
Proof.
  unfold Observe.parity, Closed.parity_result_at. cbn.
  rewrite deref_fresh_fst, deref_fresh_snd. by destruct v.
Qed.

Lemma convert_from_observed files output_dir : ∀ (h : list (list string)) converter,
  ∃ ext,
    (Batch.convert_from h converter files output_dir).1 = h ++ ext
    ∧ Observe.conversion (h ++ ext)
      <$> (Batch.convert_from h converter files output_dir).2
      = (λ f, (Closed.converted ifc_to_citygml.process_building f output_dir).1)
        <$> files.
Proof.
  induction files as [|f files IH]; intros h converter.
  { exists []. by rewrite app_nil_r. }
  cbn [Batch.convert_from]. unfold ifc_to_citygml.process_ifc_file.
  destruct (process_ifc_file_with_closed ifc_to_citygml.process_building
              h converter f output_dir) as [s1 ->].
  match goal with
  | |- context [Batch.convert_from ?h1 s1 files output_dir] =>
      destruct (IH h1 s1) as (ext & Hh & Hobs);
      destruct (Batch.convert_from h1 s1 files output_dir) as [h2 rs]
  end.
  cbn [fst snd] in *. subst h2.
  eexists. split; [by rewrite <- app_assoc|].
  rewrite <- app_assoc in Hobs. cbn [app] in Hobs.
  rewrite !fmap_cons. cbn [app]. rewrite Hobs. f_equal.
  apply observe_conversion_at.
Qed.

Lemma validate_from_observed pairs : ∀ (h : list (list string)) validator,
  ∃ ext,
    (Batch.validate_from float_raises h validator pairs).1 = h ++ ext
    ∧ Observe.parity (h ++ ext)
      <$> (Batch.validate_from float_raises h validator pairs).2
      = Closed.validated float_raises <$> pairs.
Proof.
  induction pairs as [|p pairs IH]; intros h validator.
  { exists []. by rewrite app_nil_r. }
  cbn [Batch.validate_from].
  destruct (validate_parity_closed float_raises h validator p) as [s1 ->].
  match goal with
  | |- context [Batch.validate_from _ ?h1 s1 pairs] =>
      destruct (IH h1 s1) as (ext & Hh & Hobs);
      destruct (Batch.validate_from float_raises h1 s1 pairs) as [h2 rs]
  end.
  cbn [fst snd] in *. subst h2.
  eexists. split; [by rewrite <- app_assoc|].
  rewrite <- app_assoc in Hobs. cbn [app] in Hobs.
  rewrite !fmap_cons. cbn [app]. rewrite Hobs. f_equal.
  apply observe_parity_at.
Qed.

(** C10 (order independence).  Every call of [process_ifc_file]
    ([validate_parity]) starts by giving the converter (validator) new,
    empty lists, so the result of a call does not depend on the state the
    object is in; and since a result keeps the lists of its own call,
    later calls do not touch it.  Hence, when a batch is run on one object
    and the results are read at the end, the result of a file is the same
    wherever the file stands in the batch, namely the one it has when it
    is processed first and alone. *)
Theorem order_independence :
  (∀ h1 self1 h2 self2 x output_dir,
     let run1 := ifc_to_citygml.process_ifc_file h1 self1 x output_dir in
     let run2 := ifc_to_citygml.process_ifc_file h2 self2 x output_dir in
     Observe.conversion run1.1.1.1 run1.1.2 = Observe.conversion run2.1.1.1 run2.1.2)
  ∧ (∀ pre x post output_dir,
       let batch := Batch.convert (pre ++ x :: post) output_dir in
       let alone := Batch.convert [x] output_dir in
       is_Some (batch.2 !! length pre)
       ∧ Observe.conversion batch.1 <$> batch.2 !! length pre
         = Observe.conversion alone.1 <$> alone.2 !! 0)
  ∧ (∀ h1 self1 h2 self2 p,
       let run1 := validate_roundtrip.validate_parity float_raises h1 self1 p in
       let run2 := validate_roundtrip.validate_parity float_raises h2 self2 p in
       Observe.parity run1.1.1 run1.2 = Observe.parity run2.1.1 run2.2)
  ∧ (∀ pre p post,
       let batch := Batch.validate float_raises (pre ++ p :: post) in
       let alone := Batch.validate float_raises [p] in
       is_Some (batch.2 !! length pre)
       ∧ Observe.parity batch.1 <$> batch.2 !! length pre
         = Observe.parity alone.1 <$> alone.2 !! 0).
Proof.
  split; [|split; [|split]].
  - intros h1 self1 h2 self2 x output_dir. cbn zeta.
    unfold ifc_to_citygml.process_ifc_file.
    destruct (process_ifc_file_with_closed ifc_to_citygml.process_building
                h1 self1 x output_dir) as [s1 ->].
    destruct (process_ifc_file_with_closed ifc_to_citygml.process_building
                h2 self2 x output_dir) as [s2 ->].
    cbn [fst snd].
    by rewrite !(observe_conversion_at _ _ []).
  - intros pre x post output_dir. cbn zeta. unfold Batch.convert.
    destruct (ifc_to_citygml.init []) as [h0 c0].
    destruct (convert_from_observed (pre ++ x :: post) output_dir h0 c0)
      as (ext & Hh & Hobs).
    destruct (convert_from_observed [x] output_dir h0 c0)
      as (ext1 & Hh1 & Hobs1).
    rewrite Hh, Hh1.
    rewrite <- !list_lookup_fmap, Hobs, Hobs1.
    split.
    + apply (f_equal length) in Hobs. rewrite !length_fmap in Hobs.
      apply lookup_lt_is_Some. rewrite Hobs, length_app. cbn. lia.
    + rewrite !list_lookup_fmap. by rewrite list_lookup_middle.
  - intros h1 self1 h2 self2 p. cbn zeta.
    destruct (validate_parity_closed float_raises h1 self1 p) as [s1 ->].
    destruct (validate_parity_closed float_raises h2 self2 p) as [s2 ->].
    cbn [fst snd].
    by rewrite !(observe_parity_at _ _ _ []).
  - intros pre p post. cbn zeta. unfold Batch.validate.
    destruct (validate_roundtrip.init []) as [h0 c0].
    destruct (validate_from_observed (pre ++ p :: post) h0 c0)
      as (ext & Hh & Hobs).
    destruct (validate_from_observed [p] h0 c0) as (ext1 & Hh1 & Hobs1).
    rewrite Hh, Hh1.
    rewrite <- !list_lookup_fmap, Hobs, Hobs1.
    split.
    + apply (f_equal length) in Hobs. rewrite !length_fmap in Hobs.
      apply lookup_lt_is_Some. rewrite Hobs, length_app. cbn. lia.
    + rewrite !list_lookup_fmap. by rewrite list_lookup_middle.
Qed.
End Order.

(** ** More on conversion results *)

Section ConversionResults.
Import ifc_to_citygml.

Lemma append_slash_nonempty s t : s +:+ "/" +:+ t ≠ "".
Proof. by destruct s. Qed.

(** X1. Whatever the body of the [try] block does, the result of
    [process_ifc_file] is coherent: success is true exactly when the
    errors list is empty, a successful call has written its document,
    output_file is empty exactly when no document was written, and
    input_file is the path of the source. *)
Theorem conversion_result_coherent body h self src output_dir h' self' r written :
  process_ifc_file_with body h self src output_dir = (h', self', r, written) →
  (success r = true ↔ deref h' (errors r) = [])
  ∧ (success r = true → is_Some written)
  ∧ (output_file r = "" ↔ written = None)
  ∧ input_file r = str_path (ifc_path src).
Proof.
  intros Hrun. apply process_ifc_file_observed in Hrun as (Hv & -> & _).
  unfold Closed.converted in *.
  destruct r as [s i o k e w]. unfold Observe.conversion in Hv. cbn in Hv |- *.
  destruct (opened src) as [m|exn].
  2:{ cbn in Hv |- *. injection Hv as -> -> -> _ -> _. by repeat split. }
  destruct (Closed.buildings_loop _ _ _ _ _ _) as [[t n] errs].
  destruct (write_raises src) as [exn|]; cbn in Hv |- *;
    injection Hv as -> -> -> _ -> _.
  - repeat split; try done. by destruct errs.
  - rewrite bool_decide_eq_true. repeat split; try done.
    + by destruct errs.
    + by intros ->.
    + intros H. by apply append_slash_nonempty in H.
Qed.

Lemma conversion_result_coherent_witness :
  (false = true
   ↔ deref [[ "Error processing building 0: name 'ifc_model' is not defined";
              "Error processing building 1: name 'ifc_model' is not defined" ]; []] 0
     = [])
  ∧ (false = true →
     is_Some (process_ifc_file [] Spec.fresh_converter
                (Examples.source "a" Examples.two_buildings) "models/outgoing").2)
  ∧ ("models/outgoing/a.gml" = ""
     ↔ (process_ifc_file [] Spec.fresh_converter
          (Examples.source "a" Examples.two_buildings) "models/outgoing").2 = None)
  ∧ "models/incoming/a.ifc"
    = str_path (ifc_path (Examples.source "a" Examples.two_buildings)).
Proof.
  eapply (conversion_result_coherent process_building [] Spec.fresh_converter
            (Examples.source "a" Examples.two_buildings) "models/outgoing"
            _ _
            {| success := false; input_file := "models/incoming/a.ifc";
               output_file := "models/outgoing/a.gml"; buildings_processed := 0;
               errors := 0; warnings := 1 |}).
  reflexivity.
Defined.

Lemma converted_success_iff src output_dir :
  Observe.success (Closed.converted process_building src output_dir).1 = true
  ↔ ∃ m, opened src = Ok m ∧ by_type IfcBuilding m = [] ∧ write_raises src = None.
Proof.
  destruct (opened src) as [m|exn] eqn:Hm.
  2:{ unfold Closed.converted. rewrite Hm. cbn. split; [done|]. by intros (? & ? & _). }
  rewrite (conversion_opened _ _ _ Hm). cbn zeta.
  destruct (write_raises src) as [exn|]; cbn.
  - split; [done|]. by intros (? & _ & _ & ?).
  - rewrite bool_decide_eq_true. split.
    + intros Hl. exists m. by destruct (by_type IfcBuilding m).
    + intros (m' & [= <-] & -> & _). done.
Qed.

Lemma converted_buildings_processed src output_dir :
  Observe.buildings_processed (Closed.converted process_building src output_dir).1 = 0.
Proof.
  destruct (opened src) as [m|exn] eqn:Hm.
  2:{ unfold Closed.converted. by rewrite Hm. }
  rewrite (conversion_opened _ _ _ Hm). cbn zeta.
  by destruct (write_raises src).
Qed.

(** X2. [process_ifc_file] returns success=true exactly for a file that
    opens, has no Building entity at all, and whose output can be
    written: a single building is enough to fail the file. *)
Theorem success_means_no_building h self src output_dir h' self' r written :
  process_ifc_file h self src output_dir = (h', self', r, written) →
  success r = true
  ↔ ∃ m, opened src = Ok m ∧ by_type IfcBuilding m = [] ∧ write_raises src = None.
Proof.
  intros Hrun. apply process_ifc_file_observed in Hrun as (Hv & _).
  apply (f_equal Observe.success) in Hv. cbn in Hv. rewrite Hv.
  apply (converted_success_iff src output_dir).
Qed.

Lemma success_means_no_building_witness :
  true = true
  ↔ ∃ m, opened (Examples.source "a" Examples.lone_storey) = Ok m
         ∧ by_type IfcBuilding m = []
         ∧ write_raises (Examples.source "a" Examples.lone_storey) = None.
Proof.
  eapply (success_means_no_building [] Spec.fresh_converter
            (Examples.source "a" Examples.lone_storey) "models/outgoing"
            _ _
            {| success := true; input_file := "models/incoming/a.ifc";
               output_file := "models/outgoing/a.gml"; buildings_processed := 0;
               errors := 0; warnings := 1 |}).
  reflexivity.
Defined.

Lemma file_succeeds_iff output_dir f :
  Spec.file_succeeds output_dir f = true
  ↔ ∃ m, opened f = Ok m ∧ by_type IfcBuilding m = [] ∧ write_raises f = None.
Proof.
  rewrite <- (converted_success_iff f output_dir).
  unfold Spec.file_succeeds, Spec.result_of, process_ifc_file.
  destruct (process_ifc_file_with_closed process_building (init []).1
              Spec.fresh_converter f output_dir) as [s' ->].
  reflexivity.
Qed.

Lemma main_with_directories w prog input_dir output_dir rest :
  main (prog :: input_dir :: output_dir :: rest) w = 0
  ↔ dir_exists w input_dir = true
    ∧ glob_ifc w input_dir ≠ []
    ∧ forallb (Spec.file_succeeds output_dir) (glob_ifc w input_dir) = true.
Proof.
  cbn [main].
  destruct (dir_exists w input_dir); [|by split; [|intros (? & _)]]. cbn [negb].
  destruct (glob_ifc w input_dir) as [|f files] eqn:Hfiles;
    [by split; [|intros (_ & ? & _)]|].
  change (init []) with
    ([[]; []] : list (list string),
     {| self_buildings_processed := 0; self_errors := 0; self_warnings := 1 |}).
  cbn iota beta.
  pose proof (convert_files_successes (f :: files) output_dir
                [[]; []]
                {| self_buildings_processed := 0;
                   self_errors := 0; self_warnings := 1 |} 0 0) as Hs.
  destruct (convert_files _ _ _ _ _ _) as [[[h c] s] t]. cbn [fst snd] in Hs.
  subst s. cbn [Nat.add]. rewrite <- filter_all_length.
  case_bool_decide; split; try done; [by intros (_ & _ & ?)..].
Qed.

(** X3. The convert command exits with 0 exactly when the input directory
    exists, holds at least one input file, and every input file opens,
    can be written, and contains no Building entity: one building in one
    file makes the run fail. *)
Theorem convert_exits_0_without_buildings w prog input_dir output_dir rest :
  main (prog :: input_dir :: output_dir :: rest) w = 0
  ↔ dir_exists w input_dir = true
    ∧ glob_ifc w input_dir ≠ []
    ∧ Forall (λ f, ∃ m, opened f = Ok m
                        ∧ by_type IfcBuilding m = []
                        ∧ write_raises f = None)
        (glob_ifc w input_dir).
Proof.
  rewrite main_with_directories, forallb_forall, Forall_forall.
  split; intros (? & ? & Hall); (split; [done|split; [done|]]);
    intros f Hf.
  - apply (file_succeeds_iff output_dir), Hall. by apply list_elem_of_In.
  - apply file_succeeds_iff, Hall. by apply list_elem_of_In.
Qed.

(** X4. [buildings_processed] is 0 in every result of [process_ifc_file],
    so the count of buildings that [main] accumulates over a batch never
    moves, and its count of successful conversions never exceeds the
    number of files. *)
Theorem no_building_is_ever_counted :
  (∀ h self src output_dir,
     buildings_processed (process_ifc_file h self src output_dir).1.2 = 0)
  ∧ ∀ files output_dir h converter successful total,
      (convert_files files output_dir h converter successful total).2 = total
      ∧ (convert_files files output_dir h converter successful total).1.2
        ≤ successful + length files.
Proof.
  assert (∀ (h : list (list string)) self src output_dir,
     buildings_processed (process_ifc_file h self src output_dir).1.2 = 0) as H0.
  { intros h self src output_dir. unfold process_ifc_file.
    destruct (process_ifc_file_with_closed process_building h self src output_dir)
      as [s' ->].
    apply converted_buildings_processed. }
  split; [done|].
  intros files output_dir. induction files as [|f files IH];
    intros h converter successful total; [cbn; split; [done|lia]|].
  cbn [convert_files]. specialize (H0 h converter f output_dir).
  destruct (process_ifc_file h converter f output_dir) as [[[h1 c1] r] w].
  cbn [fst snd] in H0. rewrite H0.
  destruct (success r);
    [destruct (IH h1 c1 (successful + 1) (total + 0)) as [-> ?]
    |destruct (IH h1 c1 successful total) as [-> ?]];
    cbn [length]; split; lia.
Qed.
End ConversionResults.

(** ** More on written documents *)

Section WrittenDocuments.
Import ifc_to_citygml.

Lemma written_converted (h : list (list string)) self src output_dir h' self' r doc :
  process_ifc_file h self src output_dir = (h', self', r, Some doc) →
  ∃ m, opened src = Ok m
       ∧ doc = Closed.add_children
                 (imap (Closed.building_member m) (by_type IfcBuilding m))
                 create_citymodel_root.
Proof.
  intros Hrun. apply process_ifc_file_observed in Hrun as (_ & Hw & _).
  destruct (opened src) as [m|exn] eqn:Hm.
  2:{ unfold Closed.converted in Hw. by rewrite Hm in Hw. }
  rewrite (conversion_opened _ _ _ Hm) in Hw. cbn zeta in Hw.
  destruct (write_raises src); [done|]. injection Hw as ->. by exists m.
Qed.





(** X5. Every document that [process_ifc_file] writes has the same
    skeleton: a CityModel root whose first child is the boundedBy
    placeholder (a Null element with reason "unknown" and text
    "unknown"), followed by one cityObjectMember per Building entity of
    the source, each holding exactly one element, a Building. *)
Theorem written_document_skeleton h self src output_dir h' self' r doc :
  process_ifc_file h self src output_dir = (h', self', r, Some doc) →
  ∃ m members,
    opened src = Ok m
    ∧ tag doc = CORE +:+ "CityModel"
    ∧ children doc
      = Elem (GML +:+ "boundedBy") [] None
          [Elem (GML +:+ "Null") [("reason", "unknown")] (Some "unknown") []]
        :: members
    ∧ length members = length (by_type IfcBuilding m)
    ∧ Forall (λ member,
                tag member = CORE +:+ "cityObjectMember"
                ∧ ∃ building, children member = [building]
                              ∧ tag building = CORE +:+ "Building")
        members.
Proof.
  intros Hrun. apply written_converted in Hrun as (m & Hm & ->).
  exists m, (imap (Closed.building_member m) (by_type IfcBuilding m)).
  split; [done|]. split; [done|]. split; [done|].
  split; [by rewrite length_imap|].
  apply Forall_forall. intros member (i & b & -> & _)%elem_of_lookup_imap.
  split; [done|]. by eexists.
Qed.

Lemma written_document_skeleton_witness :
  ∃ m members,
    opened (Examples.source "a" Examples.two_buildings) = Ok m
    ∧ tag (default create_citymodel_root
             (process_ifc_file [] Spec.fresh_converter
                (Examples.source "a" Examples.two_buildings) "models/outgoing").2)
      = CORE +:+ "CityModel"
    ∧ children (default create_citymodel_root
             (process_ifc_file [] Spec.fresh_converter
                (Examples.source "a" Examples.two_buildings) "models/outgoing").2)
      = Elem (GML +:+ "boundedBy") [] None
          [Elem (GML +:+ "Null") [("reason", "unknown")] (Some "unknown") []]
        :: members
    ∧ length members = length (by_type IfcBuilding m)
    ∧ Forall (λ member,
                tag member = CORE +:+ "cityObjectMember"
                ∧ ∃ building, children member = [building]
                              ∧ tag building = CORE +:+ "Building")
        members.
Proof.
  eapply (written_document_skeleton [] Spec.fresh_converter
            (Examples.source "a" Examples.two_buildings) "models/outgoing").
  reflexivity.
Defined.





End WrittenDocuments.

(** ** More on the mapping functions *)

Section MappingFunctions.
Import ifc_to_citygml.





Lemma by_id_Some m i obj : by_id m i = Some obj → obj ∈ m ∧ entity_id obj = i.
Proof.
  unfold by_id. intros H. apply head_Some_elem_of in H.
  by apply list_elem_of_filter in H as [? ?].
Qed.

(** Where an extracted storey comes from. *)
Lemma extracted_storey_from_model m building s :
  s ∈ extract_building_storeys m building →
  ∃ rel obj,
    rel ∈ m
    ∧ is_a rel = IfcRelAggregates
    ∧ refers_to (entity_id building) rel = true
    ∧ obj ∈ m
    ∧ entity_id obj ∈ RelatedObjects rel
    ∧ is_a obj = IfcBuildingStorey
    ∧ s = {| storey_name :=
               or_else (Name obj) ("Storey_" +:+ str_nat (entity_id obj));
             storey_elevation := Elevation obj;
             storey_global_id := GlobalId obj;
             storey_description := or_else (Description obj) "" |}.
Proof.
  unfold extract_building_storeys.
  intros (rel & Hs & Hrel)%list_elem_of_bind.
  unfold get_inverse in Hrel.
  apply list_elem_of_In, filter_In in Hrel as [Hrel Href].
  apply list_elem_of_In in Hrel.
  case_bool_decide as Hagg; [|by apply elem_of_nil in Hs].
  apply list_elem_of_bind in Hs as (obj & Hs & Hobj).
  unfold related_objects in Hobj.
  apply list_elem_of_omap in Hobj as (i & Hi & Hby).
  apply by_id_Some in Hby as [Hin <-].
  case_bool_decide as Hst; [|by apply elem_of_nil in Hs].
  apply list_elem_of_singleton in Hs as ->.
  exists rel, obj. by repeat split.
Qed.

(** X10. Every storey that [extract_building_storeys] returns for a
    building stems from an IfcBuildingStorey instance of the model that is
    listed among the related objects of an IfcRelAggregates relationship
    referring to the building; its name is never empty, an instance
    without a name being called "Storey_" followed by its instance id. *)
Theorem extracted_storey_provenance m building s :
  s ∈ extract_building_storeys m building →
  storey_name s ≠ ""
  ∧ ∃ rel obj,
      rel ∈ m
      ∧ is_a rel = IfcRelAggregates
      ∧ refers_to (entity_id building) rel = true
      ∧ obj ∈ m
      ∧ entity_id obj ∈ RelatedObjects rel
      ∧ is_a obj = IfcBuildingStorey
      ∧ storey_name s
        = or_else (Name obj) ("Storey_" +:+ str_nat (entity_id obj))
      ∧ storey_elevation s = Elevation obj
      ∧ storey_global_id s = GlobalId obj.
Proof.
  intros (rel & obj & Hrel & Hagg & Href & Hobj & Hid & Hst & ->)
    %extracted_storey_from_model.
  cbn [storey_name storey_elevation storey_global_id]. split.
  - unfold or_else. destruct (Name obj) as [n|]; [|done].
    by destruct (String.eqb_spec n "").
  - exists rel, obj. by repeat split.
Qed.

Lemma extracted_storey_provenance_witness :
  storey_name {| storey_name := "L1"; storey_elevation := Some "3.5";
                 storey_global_id := Some "gid-30"; storey_description := "" |} ≠ ""
  ∧ ∃ rel obj,
      rel ∈ Examples.two_buildings
      ∧ is_a rel = IfcRelAggregates
      ∧ refers_to (entity_id (Examples.entity 10 IfcBuilding (Some "Tower A"))) rel
        = true
      ∧ obj ∈ Examples.two_buildings
      ∧ entity_id obj ∈ RelatedObjects rel
      ∧ is_a obj = IfcBuildingStorey
      ∧ storey_name {| storey_name := "L1"; storey_elevation := Some "3.5";
                       storey_global_id := Some "gid-30"; storey_description := "" |}
        = or_else (Name obj) ("Storey_" +:+ str_nat (entity_id obj))
      ∧ storey_elevation {| storey_name := "L1"; storey_elevation := Some "3.5";
                       storey_global_id := Some "gid-30"; storey_description := "" |}
        = Elevation obj
      ∧ storey_global_id {| storey_name := "L1"; storey_elevation := Some "3.5";
                       storey_global_id := Some "gid-30"; storey_description := "" |}
        = GlobalId obj.
Proof.
  apply (extracted_storey_provenance Examples.two_buildings
           (Examples.entity 10 IfcBuilding (Some "Tower A"))).
  vm_compute. left.
Defined.
End MappingFunctions.

(** ** More on extracted properties *)

Section ExtractedProperties.
Import ifc_to_citygml.

Import Derived.
Local Abbreviation good := good_properties.







End ExtractedProperties.

(** ** More on validation results *)

Section ValidationResults.
Import validate_roundtrip.
Lemma validate_parity_observed float_raises (h : list (list string)) self p :
  let run := validate_parity float_raises h self p in
  Observe.parity run.1.1 run.2 = Closed.validated float_raises p.
Proof.
  cbn zeta.
  destruct (validate_parity_closed float_raises h self p) as [s' ->].
  cbn [fst snd]. apply (observe_parity_at _ _ _ []).
Qed.

(** X12. The errors list of a [ParityResult] is empty, which is what
    [main] takes for a passed validation, exactly when the source file
    opened, the target document was parsed and its storeys were read
    without exception, and all three parities are true. *)
Theorem validation_has_no_error_iff float_raises h self p :
  let run := validate_parity float_raises h self p in
  deref run.1.1 (errors run.2) = []
  ↔ (∃ m, opened p = Ok m)
    ∧ (∃ doc, parsed p = Ok doc ∧ Spec.storey_read_raises float_raises doc = None)
    ∧ buildings_parity run.2 = true
    ∧ storeys_parity run.2 = true
    ∧ properties_parity run.2 = true.
Proof.
  intros run. pose proof (validate_parity_observed float_raises h self p) as Hv.
  cbn zeta in Hv. fold run in Hv.
  change (deref run.1.1 (errors run.2)) with (Observe.parity_errors (Observe.parity run.1.1 run.2)).
  change (buildings_parity run.2) with (Observe.buildings_parity (Observe.parity run.1.1 run.2)).
  change (storeys_parity run.2) with (Observe.storeys_parity (Observe.parity run.1.1 run.2)).
  change (properties_parity run.2) with (Observe.properties_parity (Observe.parity run.1.1 run.2)).
  rewrite Hv. clear Hv run. unfold Closed.validated.
  cbn [Observe.parity_errors Observe.buildings_parity Observe.storeys_parity
       Observe.properties_parity].
  destruct (opened p) as [m|e1].
  2:{ split; [intros H; by cbn in H|]. by intros [[? [=]] _]. }
  destruct (parsed p) as [doc|e2];
    [|split; [intros H; by cbn in H|by intros (_ & (? & [=] & _) & _)]].
  destruct (Spec.storey_read_raises float_raises doc) as [e3|] eqn:Hr;
    [split; [intros H; by cbn in H|intros (_ & (? & [= <-] & ?) & _); congruence]|].
  cbn [app].
  repeat match goal with
  | |- context [bool_decide (@eq (gset _) ?x ?y)] =>
      generalize (bool_decide (x = y)); intros ?
  | |- context [length ?l] => generalize (length l); intros ?
  end.
  repeat match goal with
  | |- context [bool_decide ?P] => destruct (bool_decide P)
  | b : bool |- _ => destruct b
  end; cbn; split; try done; try (by intros (_ & _ & ? & ? & ?));
    intros _; repeat split; eauto.
Qed.

(** X13. When neither file can be read, the validator counts nothing on
    either side and all three parities come out true; the failure shows
    only in the errors list, which holds the four read errors, and in
    the two no-buildings warnings. *)
Theorem unreadable_pair_keeps_all_parities float_raises h self p e1 e2 :
  opened p = Raise e1 →
  parsed p = Raise e2 →
  let run := validate_parity float_raises h self p in
  buildings_parity run.2 = true
  ∧ storeys_parity run.2 = true
  ∧ properties_parity run.2 = true
  ∧ (ifc_buildings run.2, citygml_buildings run.2,
     ifc_storeys run.2, citygml_storeys run.2) = (0, 0, 0, 0)
  ∧ deref run.1.1 (errors run.2)
    = [ "Error reading IFC file " +:+ ifc_path p +:+ ": " +:+ e1;
        "Error reading IFC storeys " +:+ ifc_path p +:+ ": " +:+ e1;
        "Error reading CityGML file " +:+ citygml_path p +:+ ": " +:+ e2;
        "Error reading CityGML storeys " +:+ citygml_path p +:+ ": " +:+ e2 ]
  ∧ deref run.1.1 (warnings run.2)
    = [ "No buildings found in IFC file"; "No buildings found in CityGML file" ].
Proof.
  intros Ho Hp run. pose proof (validate_parity_observed float_raises h self p) as Hv.
  cbn zeta in Hv. fold run in Hv. clearbody run.
  unfold Closed.validated in Hv. rewrite Ho, Hp in Hv.
  unfold Observe.parity in Hv. cbn in Hv.
  by injection Hv as -> -> -> -> -> -> -> -> ->.
Qed.

Lemma unreadable_pair_keeps_all_parities_witness :
  let p := {| ifc_path := "models/incoming/a.ifc";
              citygml_path := "models/outgoing/a.gml";
              opened := Raise "not an IFC file";
              parsed := Raise "Document is empty" |} in
  let run := validate_parity (λ _, None) [] (init []).2 p in
  buildings_parity run.2 = true
  ∧ storeys_parity run.2 = true
  ∧ properties_parity run.2 = true
  ∧ (ifc_buildings run.2, citygml_buildings run.2,
     ifc_storeys run.2, citygml_storeys run.2) = (0, 0, 0, 0)
  ∧ deref run.1.1 (errors run.2)
    = [ "Error reading IFC file " +:+ ifc_path p +:+ ": " +:+ "not an IFC file";
        "Error reading IFC storeys " +:+ ifc_path p +:+ ": " +:+ "not an IFC file";
        "Error reading CityGML file " +:+ citygml_path p +:+ ": " +:+ "Document is empty";
        "Error reading CityGML storeys " +:+ citygml_path p +:+ ": " +:+ "Document is empty" ]
  ∧ deref run.1.1 (warnings run.2)
    = [ "No buildings found in IFC file"; "No buildings found in CityGML file" ].
Proof.
  apply (unreadable_pair_keeps_all_parities (λ _, None) [] (init []).2
           {| ifc_path := "models/incoming/a.ifc";
              citygml_path := "models/outgoing/a.gml";
              opened := Raise "not an IFC file";
              parsed := Raise "Document is empty" |}
           "not an IFC file" "Document is empty"); reflexivity.
Defined.
End ValidationResults.

(** ** Conversion followed by validation *)

Section ConvertThenValidate.
Import ifc_to_citygml.
















(** X14. A conversion that reports success is one of a file without
    Building entity (every building raises), so the written document holds
    no building and no storey: validating the source against it gives
    buildings and properties parity, the two no-buildings warnings, and
    storeys parity (and an empty errors list) exactly when the source has
    no Storey entity at all. *)
Theorem successful_conversion_validates_iff_no_storey float_raises
    h self src output_dir h' self' r written :
  process_ifc_file h self src output_dir = (h', self', r, written) →
  success r = true →
  ∃ m doc,
    opened src = Ok m
    ∧ written = Some doc
    ∧ ∀ vh vself,
        let run :=
          validate_roundtrip.validate_parity float_raises vh vself
            (Derived.converted_pair src r doc) in
        validate_roundtrip.buildings_parity run.2 = true
        ∧ validate_roundtrip.properties_parity run.2 = true
        ∧ validate_roundtrip.citygml_storeys run.2 = 0
        ∧ (validate_roundtrip.storeys_parity run.2 = true
           ↔ by_type IfcBuildingStorey m = [])
        ∧ (deref run.1.1 (validate_roundtrip.errors run.2) = []
           ↔ by_type IfcBuildingStorey m = [])
        ∧ deref run.1.1 (validate_roundtrip.warnings run.2)
          = [ "No buildings found in IFC file";
              "No buildings found in CityGML file" ].
Proof.
  intros Hrun Hs.
  pose proof Hrun as Hobs.
  apply process_ifc_file_observed in Hobs as (Hv & Hw & _).
  assert (Observe.success (Closed.converted process_building src output_dir).1
          = true) as Hc.
  { rewrite <- Hv. exact Hs. }
  apply converted_success_iff in Hc as (m & Hm & Hb & Hwr).
  rewrite (conversion_opened _ _ _ Hm) in Hw. cbn zeta in Hw.
  rewrite Hwr, Hb in Hw. cbn [imap snd] in Hw.
  eexists m, _. split; [done|]. split; [exact Hw|].
  intros vh vself run.
  pose proof (validate_parity_observed float_raises vh vself
                (Derived.converted_pair src r
                   (Closed.add_children [] create_citymodel_root))) as Hp.
  cbn zeta in Hp. fold run in Hp. clearbody run.
  unfold Closed.validated, Derived.converted_pair in Hp.
  cbn [validate_roundtrip.opened validate_roundtrip.parsed] in Hp.
  rewrite Hm, Hb in Hp.
  assert (xpath_all (validate_roundtrip.c_ "Building")
            (Closed.add_children [] create_citymodel_root) = []) as Hx
    by by vm_compute.
  assert (Spec.storey_read_raises float_raises
            (Closed.add_children [] create_citymodel_root) = None) as Hr
    by by vm_compute.
  assert (validate_roundtrip.storey_name_elements
            (Closed.add_children [] create_citymodel_root) = []) as Hn
    by by vm_compute.
  rewrite Hx, Hr, Hn in Hp. cbn [length fmap list_fmap] in Hp.
  unfold Observe.parity in Hp.
  destruct (by_type IfcBuildingStorey m) as [|s ss];
    cbn in Hp; injection Hp as -> -> -> _ _ _ -> -> ->; by repeat split.
Qed.

Lemma successful_conversion_validates_iff_no_storey_witness :
  let src := Examples.source "yard" Examples.lone_storey in
  let conv := process_ifc_file [] Spec.fresh_converter src "models/outgoing" in
  ∃ m doc,
    opened src = Ok m
    ∧ conv.2 = Some doc
    ∧ ∀ vh vself,
        let run :=
          validate_roundtrip.validate_parity (λ _, None) vh vself
            (Derived.converted_pair src conv.1.2 doc) in
        validate_roundtrip.buildings_parity run.2 = true
        ∧ validate_roundtrip.properties_parity run.2 = true
        ∧ validate_roundtrip.citygml_storeys run.2 = 0
        ∧ (validate_roundtrip.storeys_parity run.2 = true
           ↔ by_type IfcBuildingStorey m = [])
        ∧ (deref run.1.1 (validate_roundtrip.errors run.2) = []
           ↔ by_type IfcBuildingStorey m = [])
        ∧ deref run.1.1 (validate_roundtrip.warnings run.2)
          = [ "No buildings found in IFC file";
              "No buildings found in CityGML file" ].
Proof.
  eapply (successful_conversion_validates_iff_no_storey (λ _, None)
            [] Spec.fresh_converter
            (Examples.source "yard" Examples.lone_storey) "models/outgoing");
    reflexivity.
Defined.

(** X15. Whatever else went wrong in the conversion, a document that was
    written passes the validator's building count: both counts are the
    number of Building entities of the source, although every one of
    them was recorded as a failed building. *)
Theorem written_documents_pass_buildings_parity float_raises
    h self src output_dir h' self' r doc :
  process_ifc_file h self src output_dir = (h', self', r, Some doc) →
  ∃ m,
    opened src = Ok m
    ∧ length (deref h' (errors r)) = length (by_type IfcBuilding m)
    ∧ ∀ vh vself,
        let run :=
          validate_roundtrip.validate_parity float_raises vh vself
            (Derived.converted_pair src r doc) in
        validate_roundtrip.ifc_buildings run.2 = length (by_type IfcBuilding m)
        ∧ validate_roundtrip.citygml_buildings run.2
          = length (by_type IfcBuilding m)
        ∧ validate_roundtrip.buildings_parity run.2 = true.
Proof.
  intros Hrun.
  pose proof Hrun as Hobs.
  apply process_ifc_file_observed in Hobs as (Hv & Hw & _).
  destruct (opened src) as [m|exn] eqn:Hm.
  2:{ unfold Closed.converted in Hw. by rewrite Hm in Hw. }
  rewrite (conversion_opened _ _ _ Hm) in Hw, Hv. cbn zeta in Hw, Hv.
  destruct (write_raises src); [done|]. injection Hw as ->.
  exists m. split; [done|]. split.
  { change (deref h' (errors r)) with (Observe.errors (Observe.conversion h' r)).
    rewrite Hv. cbn. by rewrite length_imap. }
  intros vh vself run.
  pose proof (validate_parity_observed float_raises vh vself
                (Derived.converted_pair src r
                   (Closed.add_children
                      (imap (Closed.building_member m) (by_type IfcBuilding m))
                      create_citymodel_root))) as Hp.
  cbn zeta in Hp. fold run in Hp. clearbody run.
  apply (f_equal (λ v, (Observe.ifc_buildings v, Observe.citygml_buildings v,
                        Observe.buildings_parity v))) in Hp.
  unfold Closed.validated, Derived.converted_pair in Hp.
  cbn [validate_roundtrip.opened validate_roundtrip.parsed
       Observe.ifc_buildings Observe.citygml_buildings
       Observe.buildings_parity Observe.parity] in Hp.
  rewrite Hm, tag_Building, xpath_all_converted, length_imap in Hp.
  rewrite bool_decide_eq_true_2 in Hp by done.
  by injection Hp as -> -> ->.
Qed.

Lemma written_documents_pass_buildings_parity_witness :
  let src := Examples.source "campus" Examples.two_buildings in
  let conv := process_ifc_file [] Spec.fresh_converter src "models/outgoing" in
  ∃ m,
    opened src = Ok m
    ∧ length (deref conv.1.1.1 (errors conv.1.2)) = length (by_type IfcBuilding m)
    ∧ ∀ vh vself,
        let run :=
          validate_roundtrip.validate_parity (λ _, None) vh vself
            (Derived.converted_pair src conv.1.2
               (Closed.add_children
                  (imap (Closed.building_member Examples.two_buildings)
                     (by_type IfcBuilding Examples.two_buildings))
                  create_citymodel_root)) in
        validate_roundtrip.ifc_buildings run.2 = length (by_type IfcBuilding m)
        ∧ validate_roundtrip.citygml_buildings run.2
          = length (by_type IfcBuilding m)
        ∧ validate_roundtrip.buildings_parity run.2 = true.
Proof.
  eapply (written_documents_pass_buildings_parity (λ _, None)
            [] Spec.fresh_converter
            (Examples.source "campus" Examples.two_buildings) "models/outgoing").
  vm_compute. reflexivity.
Defined.





End ConvertThenValidate.

(** ** Preservation of building names *)

Section NamePreservation.
Import ifc_to_citygml.





End NamePreservation.

(** ** The command line of the validator *)

Section ValidatorCommandLine.
Import validate_roundtrip.

(** The errors that [main] reads off a result do not depend on the heap
    or on the validator object the call started from. *)
Lemma pair_errors_closed float_raises (h : list (list string)) self p :
  let run := validate_parity float_raises h self p in
  deref run.1.1 (errors run.2) = Derived.pair_errors float_raises p.
Proof.
  cbn zeta. unfold Derived.pair_errors.
  change (deref ?h (errors ?r)) with (Observe.parity_errors (Observe.parity h r)).
  by rewrite !validate_parity_observed.
Qed.

Lemma file_passes_errors float_raises f :
  Derived.file_passes float_raises f = true
  ↔ Derived.file_errors float_raises f = 0.
Proof.
  unfold Derived.file_passes, Derived.file_errors.
  destruct (citygml_exists f); cbn; [|done].
  rewrite bool_decide_eq_true. by destruct (Derived.pair_errors _ _).
Qed.

Lemma validate_files_closed float_raises files : ∀ (h : list (list string)) validator s t,
  let run := validate_files float_raises files h validator s t in
  run.1.2 = s + length (List.filter (Derived.file_passes float_raises) files)
  ∧ run.2 = t + sum_list (Derived.file_errors float_raises <$> files).
Proof.
  induction files as [|f files IH]; intros h validator s t.
  { cbn. split; lia. }
  cbn [validate_files fmap list_fmap sum_list sum_list_with List.filter id].
  unfold Derived.file_passes at 1, Derived.file_errors at 1.
  destruct (citygml_exists f) eqn:Hex; cbn [negb andb].
  2:{ destruct (IH h validator s (t + 1)) as [-> ->]. split; lia. }
  pose proof (pair_errors_closed float_raises h validator (file_pair f)) as He.
  cbn zeta in He.
  destruct (validate_parity float_raises h validator (file_pair f))
    as [[h1 v1] res]. cbn [fst snd] in He. rewrite He.
  destruct (Derived.pair_errors float_raises (file_pair f)) as [|e es] eqn:Hp.
  - rewrite bool_decide_eq_true_2 by done.
    destruct (IH h1 v1 (s + 1) t) as [-> ->]. cbn [length]. split; lia.
  - rewrite bool_decide_eq_false_2 by done.
    destruct (IH h1 v1 s (t + length (e :: es))) as [-> ->]. split; lia.
Qed.

Lemma sum_list_zero (l : list nat) : sum_list l = 0 ↔ Forall (λ n, n = 0) l.
Proof.
  induction l as [|n l IH]; cbn; [by split|].
  rewrite Forall_cons, <- IH. lia.
Qed.

(** X19. The loop of the validator's [main] treats every input file on
    its own: the number of successful validations grows by the number
    of files that have a counterpart and validate without error, and
    [total_errors] by one for a missing counterpart and by the length of
    the errors list otherwise, whatever earlier files did to the
    validator.  All files are successful exactly when no error is
    counted. *)
Theorem validation_loop_totals float_raises files h validator s t :
  let run := validate_files float_raises files h validator s t in
  run.1.2
  = s + length (List.filter (Derived.file_passes float_raises) files)
  ∧ run.2 = t + sum_list (Derived.file_errors float_raises <$> files)
  ∧ (run.1.2 = s + length files ↔ run.2 = t).
Proof.
  intros run.
  destruct (validate_files_closed float_raises files h validator s t)
    as [Hs Ht]. fold run in Hs, Ht.
  split; [done|]. split; [done|]. rewrite Hs, Ht.
  assert (∀ a b, a + b = a ↔ b = 0) as Hz by lia.
  rewrite Hz, sum_list_zero, Forall_fmap.
  assert (∀ a b c, a + b = a + c ↔ b = c) as Hc by lia.
  rewrite Hc, filter_all_length, <- Is_true_true, forallb_True.
  apply Forall_iff. intros f. rewrite Is_true_true. apply file_passes_errors.
Qed.

(** X20. Exit codes of the validator's command line: 2 exactly when fewer
    than two arguments are given; 0 exactly when both directories exist,
    there is at least one input file, and every input file has its
    counterpart and validates without error; 1 otherwise. *)
Theorem validator_exit_codes float_raises argv w :
  (main float_raises argv w = 2 ↔ length argv < 3)
  ∧ (main float_raises argv w = 0
     ↔ ∃ prog ifc_dir citygml_dir rest,
         argv = prog :: ifc_dir :: citygml_dir :: rest
         ∧ dir_exists w ifc_dir = true
         ∧ dir_exists w citygml_dir = true
         ∧ glob_pairs w ifc_dir citygml_dir ≠ []
         ∧ Forall (λ f, citygml_exists f = true
                        ∧ Derived.pair_errors float_raises (file_pair f) = [])
             (glob_pairs w ifc_dir citygml_dir))
  ∧ main float_raises argv w ≤ 2.
Proof.
  destruct argv as [|prog [|ifc_dir [|citygml_dir rest]]];
    try (cbn; split; [split; [intros _; lia|done]|];
         split; [|lia]; split; [done|]; by intros (? & ? & ? & ? & [=] & _)).
  cbn [main length].
  destruct (dir_exists w ifc_dir) eqn:Hi; cbn [negb].
  2:{ split; [split; [done|lia]|]. split; [|lia]. split; [done|].
      intros (? & ? & ? & ? & [= <- <- <- <-] & ? & _). congruence. }
  destruct (dir_exists w citygml_dir) eqn:Hc; cbn [negb].
  2:{ split; [split; [done|lia]|]. split; [|lia]. split; [done|].
      intros (? & ? & ? & ? & [= <- <- <- <-] & _ & ? & _). congruence. }
  destruct (init []) as [h validator].
  destruct (glob_pairs w ifc_dir citygml_dir) as [|f files] eqn:Hg.
  { split; [split; [done|lia]|]. split; [|lia]. split; [done|].
    intros (? & ? & ? & ? & [= <- <- <- <-] & _ & _ & Hne & _).
    by rewrite Hg in Hne. }
  destruct (validate_files_closed float_raises (f :: files) h validator 0 0)
    as [Hs _].
  destruct (validate_files float_raises (f :: files) h validator 0 0)
    as [[[h' v'] s'] t']. cbn [fst snd] in Hs. subst s'.
  cbn [Nat.add].
  split; [split; [by case_bool_decide|lia]|]. split; [|case_bool_decide; lia].
  case_bool_decide as Hall.
  - split; [intros _|done].
    exists prog, ifc_dir, citygml_dir, rest. rewrite Hg.
    do 4 (split; [done|]).
    apply filter_all_length, Is_true_true, forallb_True in Hall.
    eapply Forall_impl; [exact Hall|]. intros g Hgp.
    apply Is_true_true in Hgp. unfold Derived.file_passes in Hgp.
    apply andb_true_iff in Hgp as [? Hgp]. by apply bool_decide_eq_true in Hgp.
  - split; [done|].
    intros (? & ? & ? & ? & [= <- <- <- <-] & _ & _ & _ & HF).
    exfalso. apply Hall. rewrite Hg in HF.
    apply filter_all_length, Is_true_true, forallb_True.
    eapply Forall_impl; [exact HF|]. intros g [Hex Hp].
    apply Is_true_true. unfold Derived.file_passes. rewrite Hex.
    by apply bool_decide_eq_true_2.
Qed.

End ValidatorCommandLine.
